(** * Trade Data Intelligence Dashboard: data-access layer and extractor

    A shallow embedding of [src/database_manager.py] (class
    [DatabaseManager]) and of the rate limiter and response mapping of
    [src/data_extractor.py] (class [ComtradeDataExtractor]), followed by
    the properties of the specification that are about them.

    Conventions of the embedding.
    - Python values are the inductive [pyval]; a Python [int] is a [Z], a
      Python [float] (and an SQLite REAL) is an exact rational [Q]:
      rounding, infinities and NaN are outside the model, the
      [OverflowError] of [float(int)] is inside it.
    - A [str] is a Rocq [string]; its characters are code points below 256.
    - A [datetime] is a number of microseconds on the time line.
    - Exceptions are values of [exn]; a function that can raise returns a
      [result].
    - An SQLite cell is dynamically typed ([sqlval]); column affinity is
      applied when a row is stored and when a column is compared.
    - Text/number conversions of the Python runtime and of the SQLite
      engine that no function of the repository implements are fields of
      the class [Runtime]. *)

From Stdlib Require Import ZArith QArith String Ascii List Bool Lia DecimalString.
From stdpp Require Import base option gmap strings list sorting.

Set Warnings "-register-all".
Close Scope Q_scope.
Open Scope string_scope.
Open Scope Z_scope.

(** ** Python values *)

Module Py.

Inductive exn :=
  | ValueError
  | TypeError
  | AttributeError
  | OverflowError
  | KeyError
  | ProgrammingError      (* sqlite3: wrong number or type of bindings *)
  | OperationalError.     (* sqlite3: error raised by the engine *)

Inductive result (A : Type) :=
  | Ok (a : A)
  | Raise (e : exn).
Arguments Ok {A} a.
Arguments Raise {A} e.

#[global] Instance result_ret : MRet result := fun A a => Ok a.
#[global] Instance result_bind : MBind result := fun A B k r =>
  match r with
  | Ok a => k a
  | Raise e => Raise e
  end.

(** The values [json.loads] produces, which are also the values the
    filter dictionary and the parameter tuples hold. A [dict] is an
    association list in which the first binding of a key is the live one. *)
Inductive pyval :=
  | PyNone
  | PyBool (b : bool)
  | PyInt (n : Z)
  | PyFloat (q : Q)
  | PyStr (s : string)
  | PyList (l : list pyval)
  | PyDict (d : list (string * pyval)).

(** Truth value testing: [if v:]. *)
Definition truthy (v : pyval) : bool :=
  match v with
  | PyNone => false
  | PyBool b => b
  | PyInt n => negb (Z.eqb n 0)
  | PyFloat q => negb (Qeq_bool q 0)
  | PyStr s => negb (String.eqb s "")
  | PyList l => match l with [] => false | _ => true end
  | PyDict d => match d with [] => false | _ => true end
  end.

Fixpoint assoc (k : string) (d : list (string * pyval)) : option pyval :=
  match d with
  | [] => None
  | (k', v) :: d' => if String.eqb k k' then Some v else assoc k d'
  end.

(** [record.get(key, default)]: only a [dict] has the method. *)
Definition get (record : pyval) (key : string) (dflt : pyval) : result pyval :=
  match record with
  | PyDict d => Ok (default dflt (assoc key d))
  | _ => Raise AttributeError
  end.

Definition is_str (s : string) (v : pyval) : bool :=
  match v with
  | PyStr s' => String.eqb s s'
  | _ => false
  end.

(** [key in container], for a [str] key. *)
Definition contains (key : string) (container : pyval) : result bool :=
  match container with
  | PyDict d => Ok (bool_decide (is_Some (assoc key d)))
  | PyList l => Ok (existsb (is_str key) l)
  | PyStr s => Ok (bool_decide (is_Some (String.index 0 key s)))
  | _ => Raise TypeError
  end.

(** [container[key]], for a [str] key. *)
Definition getitem (container : pyval) (key : string) : result pyval :=
  match container with
  | PyDict d =>
      match assoc key d with
      | Some v => Ok v
      | None => Raise KeyError
      end
  | _ => Raise TypeError
  end.

Fixpoint chars (s : string) : list pyval :=
  match s with
  | EmptyString => []
  | String c s' => PyStr (String c EmptyString) :: chars s'
  end.

(** The sequence a [for] loop walks through. *)
Definition iter (v : pyval) : result (list pyval) :=
  match v with
  | PyList l => Ok l
  | PyDict d => Ok (map (fun kv => PyStr (fst kv)) d)
  | PyStr s => Ok (chars s)
  | _ => Raise TypeError
  end.

Definition str_of_int (n : Z) : string := NilZero.string_of_int (Z.to_int n).

(** The largest magnitude [float(int)] converts: beyond it the nearest
    double is infinite and CPython raises [OverflowError]. *)
Definition float_int_bound : Z := 2 ^ 1024 - 2 ^ 970.

End Py.
Export Py.

(** ** What the embedding takes from the runtime

    [float(str)] and [str(float)] of CPython, and the conversions between
    TEXT and numbers of SQLite, are library code. The development is
    parametric in them. *)

Inductive number :=
  | NInt (n : Z)
  | NReal (q : Q).

Class Runtime := {
  (** [float(s)] for a string; [None] is [ValueError]. *)
  float_of_str : string → option Q;
  (** [str(v)] where [v] is a float, a list or a dict. *)
  str_of_other : pyval → string;
  (** SQLite: the number a text is when it is, as a whole, a well-formed
      integer or real literal. *)
  numeric_literal : string → option number;
  (** SQLite: the text form of a REAL. *)
  text_of_real : Q → string;
  (** SQLite: the value of the longest numeric prefix of a text, 0 if
      there is none. *)
  real_of_text : string → Q
}.

Section PyBuiltins.
Context {RT : Runtime}.

(** The builtin [float(v)]. *)
Definition float (v : pyval) : result Q :=
  match v with
  | PyBool b => Ok (if b then 1%Q else 0%Q)
  | PyInt n =>
      if Z.ltb (Z.abs n) float_int_bound then Ok (inject_Z n) else Raise OverflowError
  | PyFloat q => Ok q
  | PyStr s =>
      match float_of_str s with
      | Some q => Ok q
      | None => Raise ValueError
      end
  | PyNone | PyList _ | PyDict _ => Raise TypeError
  end.

(** What an f-string field [{v}] expands to. *)
Definition format (v : pyval) : string :=
  match v with
  | PyNone => "None"
  | PyBool true => "True"
  | PyBool false => "False"
  | PyInt n => str_of_int n
  | PyStr s => s
  | PyFloat _ | PyList _ | PyDict _ => str_of_other v
  end.

End PyBuiltins.

(** ** The SQLite engine, as far as the queries of the repository use it *)

Module Sqlite.

(** A cell: SQLite types values, not columns. BLOBs never arise. *)
Inductive sqlval :=
  | SqlNull
  | SqlInt (n : Z)
  | SqlReal (q : Q)
  | SqlText (s : string).

(** Column affinity, from the declared type of the column. *)
Inductive affinity :=
  | INTEGER     (* INTEGER *)
  | REAL        (* REAL *)
  | TEXT.       (* VARCHAR(n), TEXT *)

#[global] Instance Q_eq_dec : EqDecision Q.
Proof. solve_decision. Defined.
#[global] Instance sqlval_eq_dec : EqDecision sqlval.
Proof. solve_decision. Defined.

Definition in_int64 (n : Z) : bool :=
  Z.leb (- 2 ^ 63) n && Z.leb n (2 ^ 63 - 1).

(** How the [sqlite3] module binds a Python value to a [?]. *)
Definition adapt (v : pyval) : result sqlval :=
  match v with
  | PyNone => Ok SqlNull
  | PyBool b => Ok (SqlInt (if b then 1 else 0))
  | PyInt n => if in_int64 n then Ok (SqlInt n) else Raise OverflowError
  | PyFloat q => Ok (SqlReal q)
  | PyStr s => Ok (SqlText s)
  | PyList _ | PyDict _ => Raise ProgrammingError
  end.

(** The bindings of a statement with [n] placeholders. *)
Definition bind_parameters (n : nat) (params : list pyval) : result (list sqlval) :=
  if Nat.eqb (length params) n then mapM adapt params else Raise ProgrammingError.

(** How the [sqlite3] module hands a cell back. *)
Definition to_python (v : sqlval) : pyval :=
  match v with
  | SqlNull => PyNone
  | SqlInt n => PyInt n
  | SqlReal q => PyFloat q
  | SqlText s => PyStr s
  end.

Definition is_null (v : sqlval) : bool :=
  match v with
  | SqlNull => true
  | _ => false
  end.

(** The integer a REAL is, when it is one that fits. *)
Definition real_to_int (q : Q) : option Z :=
  let r := Qred q in
  if Pos.eqb (Qden r) 1 && Z.ltb (- 2 ^ 63) (Qnum r) && Z.ltb (Qnum r) (2 ^ 63 - 1)
  then Some (Qnum r) else None.

(** The numeric value of a cell that holds a number. *)
Definition numeric_value (v : sqlval) : Q :=
  match v with
  | SqlInt n => inject_Z n
  | SqlReal q => q
  | _ => 0%Q
  end.

(** The order of ORDER BY, MIN, MAX and DISTINCT under the BINARY
    collation: NULL first, then numbers by value, then text. *)
Definition sql_compare (a b : sqlval) : comparison :=
  match a, b with
  | SqlNull, SqlNull => Eq
  | SqlNull, _ => Lt
  | _, SqlNull => Gt
  | SqlText s, SqlText t => String.compare s t
  | SqlText _, _ => Gt
  | _, SqlText _ => Lt
  | _, _ => Qcompare (numeric_value a) (numeric_value b)
  end.

Definition to_lower (c : ascii) : ascii :=
  let n := N_of_ascii c in
  if N.leb 65 n && N.leb n 90 then ascii_of_N (n + 32) else c.

(** [s LIKE p] on texts: [%] stands for any run of characters, [_] for
    any one character, a letter of ASCII for itself in either case. *)
Fixpoint like (p : string) : string → bool :=
  match p with
  | EmptyString => fun s =>
      match s with
      | EmptyString => true
      | _ => false
      end
  | String c p' =>
      if Ascii.eqb c "%" then
        fix any (s : string) : bool :=
          like p' s ||
          match s with
          | EmptyString => false
          | String _ s' => any s'
          end
      else fun s =>
        match s with
        | EmptyString => false
        | String d s' =>
            (Ascii.eqb c "_" || Ascii.eqb (to_lower c) (to_lower d)) && like p' s'
        end
  end.

Section Conversions.
Context {RT : Runtime}.

Definition text_to_numeric (s : string) : sqlval :=
  match numeric_literal s with
  | Some (NInt n) => if in_int64 n then SqlInt n else SqlReal (inject_Z n)
  | Some (NReal q) => SqlReal q
  | None => SqlText s
  end.

Definition real_to_integer (v : sqlval) : sqlval :=
  match v with
  | SqlReal q =>
      match real_to_int q with
      | Some n => SqlInt n
      | None => v
      end
  | _ => v
  end.

(** NUMERIC (and INTEGER) affinity. *)
Definition numeric_affinity (v : sqlval) : sqlval :=
  match v with
  | SqlText s => real_to_integer (text_to_numeric s)
  | _ => real_to_integer v
  end.

(** REAL affinity: as NUMERIC, but an integer is stored as a REAL. *)
Definition real_affinity (v : sqlval) : sqlval :=
  match v with
  | SqlText s =>
      match text_to_numeric s with
      | SqlInt n => SqlReal (inject_Z n)
      | v' => v'
      end
  | SqlInt n => SqlReal (inject_Z n)
  | _ => v
  end.

Definition text_affinity (v : sqlval) : sqlval :=
  match v with
  | SqlInt n => SqlText (str_of_int n)
  | SqlReal q => SqlText (text_of_real q)
  | _ => v
  end.

(** The cell a column of affinity [a] stores for a bound value. *)
Definition coerce (a : affinity) (v : sqlval) : sqlval :=
  match a with
  | INTEGER => numeric_affinity v
  | REAL => real_affinity v
  | TEXT => text_affinity v
  end.

(** [column = ?] in a WHERE clause: the parameter has no affinity and
    takes the one the column calls for; NULL equals nothing. *)
Definition where_eq (a : affinity) (cell param : sqlval) : bool :=
  let p := match a with
           | INTEGER | REAL => numeric_affinity param
           | TEXT => text_affinity param
           end in
  negb (is_null cell) && negb (is_null p) &&
  match sql_compare cell p with
  | Eq => true
  | _ => false
  end.

(** [column LIKE ?] in a WHERE clause: both sides are read as text. *)
Definition where_like (cell param : sqlval) : bool :=
  match text_affinity cell, text_affinity param with
  | SqlText s, SqlText p => like p s
  | _, _ => false
  end.

(** SUM over a column of REAL affinity: NULL over no value, else a
    REAL; a text counts for its numeric prefix. Such a column holds no
    INTEGER, so the integer sum of the engine and its overflow are left
    out: an INTEGER counts for its value. *)
Definition sum_term (v : sqlval) : Q :=
  match v with
  | SqlText s =>
      match text_to_numeric s with
      | SqlText _ => real_of_text s
      | v' => numeric_value v'
      end
  | _ => numeric_value v
  end.

Definition sql_sum (cells : list sqlval) : sqlval :=
  match filter (fun v => is_null v = false) cells with
  | [] => SqlNull
  | vs => SqlReal (fold_left Qplus (map sum_term vs) 0%Q)
  end.

End Conversions.

(** MIN and MAX: NULL over no value, the first of equal values. *)
Definition extremum (worse : comparison) (cells : list sqlval) : sqlval :=
  fold_left
    (fun best v =>
       if is_null v then best
       else if is_null best then v
       else if bool_decide (sql_compare best v = worse) then v else best)
    cells SqlNull.

Definition sql_min : list sqlval → sqlval := extremum Gt.
Definition sql_max : list sqlval → sqlval := extremum Lt.

(** COUNT(DISTINCT column). *)
Fixpoint distinct (cells : list sqlval) : list sqlval :=
  match cells with
  | [] => []
  | v :: vs =>
      let rest := distinct vs in
      if existsb (fun w => bool_decide (sql_compare v w = Eq)) rest then rest
      else v :: rest
  end.

Definition count_distinct (cells : list sqlval) : Z :=
  Z.of_nat (length (distinct (filter (fun v => is_null v = false) cells))).

End Sqlite.
Export Sqlite.

(** ** [database_manager.py]: class [DatabaseManager] *)

Module DatabaseManager.

(** The twelve columns of [trade_data] a query selects and an insert
    binds, in the order of the schema. *)
Record trade_record := {
  year : sqlval;
  month : sqlval;
  reporter_code : sqlval;
  reporter_name : sqlval;
  partner_code : sqlval;
  partner_name : sqlval;
  trade_flow : sqlval;
  hs_code : sqlval;
  hs_description : sqlval;
  trade_value : sqlval;
  quantity : sqlval;
  unit_ : sqlval
}.

(** A stored row: [id INTEGER PRIMARY KEY AUTOINCREMENT] and the twelve
    columns. [created_at], which no query of the class selects, is left
    out. *)
Record trade_row := {
  rowid : Z;
  fields : trade_record
}.

(** A row of [countries (code PRIMARY KEY, name, region)]. *)
Record country := {
  country_code : sqlval;
  country_name : sqlval;
  country_region : sqlval
}.

(** A row of [hs_codes (code PRIMARY KEY, description, section)]. *)
Record hs := {
  hs_code_ : sqlval;
  hs_description_ : sqlval;
  hs_section : sqlval
}.

#[global] Instance trade_record_eq_dec : EqDecision trade_record.
Proof. solve_decision. Defined.
#[global] Instance trade_row_eq_dec : EqDecision trade_row.
Proof. solve_decision. Defined.
#[global] Instance country_eq_dec : EqDecision country.
Proof. solve_decision. Defined.
#[global] Instance hs_eq_dec : EqDecision hs.
Proof. solve_decision. Defined.

(** The database file after [init_database]: the three tables, and the
    counter AUTOINCREMENT keeps in [sqlite_sequence]. *)
Record database := {
  trade_data : list trade_row;
  trade_data_seq : Z;
  countries : list country;
  hs_codes : list hs
}.

Definition empty : database :=
  {| trade_data := []; trade_data_seq := 0; countries := []; hs_codes := [] |}.

Definition with_countries (db : database) (table : list country) : database :=
  {| trade_data := trade_data db; trade_data_seq := trade_data_seq db;
     countries := table; hs_codes := hs_codes db |}.

Definition with_hs_codes (db : database) (table : list hs) : database :=
  {| trade_data := trade_data db; trade_data_seq := trade_data_seq db;
     countries := countries db; hs_codes := table |}.

(** [with self.get_connection() as conn: ...; conn.commit()] inside
    [try: ... except Exception: ...; raise]: the statements run in one
    transaction, which is committed when the body ends and rolled back
    when it raises; the exception is raised again. *)
Definition transaction (db : database) (body : database → result database)
  : database * result () :=
  match body db with
  | Ok db' => (db', Ok ())
  | Raise e => (db, Raise e)
  end.

(** [cursor.executemany(statement, rows)]: the statement once per
    element, in order, until one raises. *)
Fixpoint executemany (statement : database → list pyval → result database)
    (db : database) (rows : list (list pyval)) : result database :=
  match rows with
  | [] => Ok db
  | row :: rows' => db' ← statement db row; executemany statement db' rows'
  end.

Section Statements.
Context {RT : Runtime}.

(** The rowid AUTOINCREMENT gives: one more than the largest ever used. *)
Definition next_rowid (db : database) : Z :=
  Z.max (fold_right Z.max 0 (map rowid (trade_data db))) (trade_data_seq db) + 1.

(** The twelve bound values as the columns store them. *)
Definition stored_record (cells : list sqlval) : result trade_record :=
  match cells with
  | [c1; c2; c3; c4; c5; c6; c7; c8; c9; c10; c11; c12] =>
      Ok {| year := coerce INTEGER c1;
            month := coerce INTEGER c2;
            reporter_code := coerce TEXT c3;
            reporter_name := coerce TEXT c4;
            partner_code := coerce TEXT c5;
            partner_name := coerce TEXT c6;
            trade_flow := coerce TEXT c7;
            hs_code := coerce TEXT c8;
            hs_description := coerce TEXT c9;
            trade_value := coerce REAL c10;
            quantity := coerce REAL c11;
            unit_ := coerce TEXT c12 |}
  | _ => Raise ProgrammingError
  end.

(** What a parameter tuple becomes in the table. *)
Definition trade_record_of (params : list pyval) : result trade_record :=
  cells ← bind_parameters 12 params; stored_record cells.

(** [INSERT OR REPLACE INTO trade_data (year, ..., unit) VALUES (?, ... ?)]:
    the row takes a new rowid and replaces the rows of that rowid; the
    engine refuses the insert when the rowids are used up. *)
Definition insert_trade_row (db : database) (params : list pyval) : result database :=
  record ← trade_record_of params;
  let row := {| rowid := next_rowid db; fields := record |} in
  if in_int64 (rowid row) then
    Ok {| trade_data :=
            (filter (fun r => rowid r ≠ rowid row) (trade_data db) ++ [row])%list;
          trade_data_seq := rowid row;
          countries := countries db;
          hs_codes := hs_codes db |}
  else Raise OperationalError.

(** Two keys of a PRIMARY KEY column collide when neither is NULL and
    they are equal. *)
Definition same_key (a b : sqlval) : bool :=
  negb (is_null a) && negb (is_null b) && bool_decide (sql_compare a b = Eq).

(** INSERT OR REPLACE into a table whose primary key is the column
    [key]: the rows the new one collides with go, the new one is added. *)
Definition replace_into {A} (key : A → sqlval) (table : list A) (row : A) : list A :=
  (filter (fun r => same_key (key r) (key row) = false) table ++ [row])%list.

(** [INSERT OR REPLACE INTO countries (code, name, region) VALUES (?, ?, ?)]. *)
Definition insert_country (db : database) (params : list pyval) : result database :=
  cells ← bind_parameters 3 params;
  match cells with
  | [c1; c2; c3] =>
      Ok (with_countries db
            (replace_into country_code (countries db)
               {| country_code := coerce TEXT c1;
                  country_name := coerce TEXT c2;
                  country_region := coerce TEXT c3 |}))
  | _ => Raise ProgrammingError
  end.

(** [INSERT OR REPLACE INTO hs_codes (code, description, section) VALUES (?, ?, ?)]. *)
Definition insert_hs (db : database) (params : list pyval) : result database :=
  cells ← bind_parameters 3 params;
  match cells with
  | [c1; c2; c3] =>
      Ok (with_hs_codes db
            (replace_into hs_code_ (hs_codes db)
               {| hs_code_ := coerce TEXT c1;
                  hs_description_ := coerce TEXT c2;
                  hs_section := coerce TEXT c3 |}))
  | _ => Raise ProgrammingError
  end.

Definition insert_trade_data (db : database) (data_list : list (list pyval))
  : database * result () :=
  transaction db (fun db => executemany insert_trade_row db data_list).

Definition insert_countries (db : database) (countries_data : list (list pyval))
  : database * result () :=
  transaction db (fun db => executemany insert_country db countries_data).

Definition insert_hs_codes (db : database) (hs_codes_data : list (list pyval))
  : database * result () :=
  transaction db (fun db => executemany insert_hs db hs_codes_data).

End Statements.

(** *** Queries *)

(** The columns [get_trade_data] can constrain. *)
Inductive column :=
  | Year
  | ReporterCode
  | PartnerCode
  | TradeFlow
  | HsCode.

Definition cell (c : column) (r : trade_record) : sqlval :=
  match c with
  | Year => year r
  | ReporterCode => reporter_code r
  | PartnerCode => partner_code r
  | TradeFlow => trade_flow r
  | HsCode => hs_code r
  end.

Definition column_affinity (c : column) : affinity :=
  match c with
  | Year => INTEGER
  | _ => TEXT
  end.

(** A piece of query text with one placeholder:
    [' AND c = ?'] and [' AND c LIKE ?']. *)
Inductive condition :=
  | AndEquals (c : column)
  | AndLike (c : column).

(** [ORDER BY year DESC, trade_value DESC]: [r1] may stand before [r2]. *)
Definition order_by (r1 r2 : trade_record) : Prop :=
  match sql_compare (year r1) (year r2) with
  | Gt => True
  | Eq => sql_compare (trade_value r1) (trade_value r2) ≠ Lt
  | Lt => False
  end.

#[global] Instance order_by_dec : RelDecision order_by.
Proof.
  intros r1 r2. unfold order_by.
  destruct (sql_compare (year r1) (year r2)); apply _.
Defined.

Section Queries.
Context {RT : Runtime}.

Definition holds (r : trade_record) (cp : condition * sqlval) : bool :=
  match cp.1 with
  | AndEquals c => where_eq (column_affinity c) (cell c r) cp.2
  | AndLike c => where_like (cell c r) cp.2
  end.

(** [pd.read_sql_query(query, conn, params=params)] for the SELECT of
    [get_trade_data] with the conditions [query] after [WHERE 1=1]. The
    engine leaves the order of rows that tie open; the model takes the
    one a merge sort gives. *)
Definition read_sql_query (db : database) (query : list condition)
    (params : list pyval) : result (list trade_record) :=
  bound ← bind_parameters (length query) params;
  Ok (merge_sort order_by
        (filter (fun r => forallb (holds r) (zip query bound) = true)
                (map fields (trade_data db)))).

(** [if key in filters and filters[key]: query += text; params.append(...)]. *)
Definition add_filter (filters : gmap string pyval) (key : string)
    (text : condition) (param : pyval → pyval)
    (qp : list condition * list pyval) : list condition * list pyval :=
  match filters !! key with
  | Some v => if truthy v then ((qp.1 ++ [text])%list, (qp.2 ++ [param v])%list) else qp
  | None => qp
  end.

(** The five tests of [get_trade_data], in the order of the source. *)
Definition conditions (filters : gmap string pyval) : list condition * list pyval :=
  add_filter filters "hs_code" (AndLike HsCode)
    (fun v => PyStr (format v ++ "%")%string)
  (add_filter filters "trade_flow" (AndEquals TradeFlow) id
  (add_filter filters "partner_code" (AndEquals PartnerCode) id
  (add_filter filters "reporter_code" (AndEquals ReporterCode) id
  (add_filter filters "year" (AndEquals Year) id
  ([], []))))).

(** The query text after [WHERE 1=1] and its parameters; [if filters:]
    is false of [None] and of the empty dictionary. *)
Definition build_query (filters : option (gmap string pyval))
  : list condition * list pyval :=
  match filters with
  | Some filters =>
      if bool_decide (size filters ≠ 0%nat) then conditions filters else ([], [])
  | None => ([], [])
  end.

(** [get_trade_data(filters=None)]; the [DataFrame] is the list of its
    rows, and the empty one of the [except] branch is the empty list. *)
Definition get_trade_data (db : database) (filters : option (gmap string pyval))
  : list trade_record :=
  let qp := build_query filters in
  match read_sql_query db qp.1 qp.2 with
  | Ok df => df
  | Raise _ => []
  end.

(** The dictionary [get_summary_stats] fills. *)
Record stats := {
  total_records : Z;
  year_range : string;
  unique_reporters : Z;
  unique_partners : Z;
  total_trade_value : pyval
}.

(** [get_summary_stats()]. None of its five statements can fail on an
    initialised database, so the [except] branch is not taken. *)
Definition get_summary_stats (db : database) : stats :=
  let rows := map fields (trade_data db) in
  let min_year := to_python (sql_min (map year rows)) in
  let max_year := to_python (sql_max (map year rows)) in
  let total_value :=
    to_python
      (sql_sum (map trade_value
                  (filter (fun r => is_null (trade_value r) = false) rows))) in
  {| total_records := Z.of_nat (length (trade_data db));
     year_range :=
       if truthy min_year then format min_year ++ "-" ++ format max_year
       else "No data";
     unique_reporters := count_distinct (map reporter_code rows);
     unique_partners := count_distinct (map partner_code rows);
     total_trade_value := if truthy total_value then total_value else PyInt 0 |}.

(** GROUP BY: the rows fall into groups of equal keys, NULL being equal
    to NULL; the model lists the groups in the order their first rows
    come, which the engine leaves open. *)
Definition add_to_groups (same_group : trade_record → trade_record → bool)
    (groups : list (list trade_record)) (r : trade_record)
  : list (list trade_record) :=
  let of_r (g : list trade_record) :=
    match g with
    | r0 :: _ => same_group r0 r
    | [] => false
    end in
  if existsb of_r groups
  then map (fun g => if of_r g then (g ++ [r])%list else g) groups
  else (groups ++ [[r]])%list.

Definition group_by (same_group : trade_record → trade_record → bool)
    (rows : list trade_record) : list (list trade_record) :=
  fold_left (add_to_groups same_group) rows [].

Definition same_cell (a b : sqlval) : bool :=
  bool_decide (sql_compare a b = Eq).

(** A row of the result of [get_top_traders]:
    [reporter_name, total_value, record_count]. *)
Record trader := {
  trader_name : sqlval;
  total_value : sqlval;
  record_count : Z
}.

(** [ORDER BY total_value DESC]. *)
Definition by_total_value (a b : trader) : Prop :=
  sql_compare (total_value a) (total_value b) ≠ Lt.

(** [get_top_traders(trade_flow='Import', limit=10)]; a LIMIT that is
    no integer is an error, and so the empty [DataFrame]. *)
Definition get_top_traders (db : database) (trade_flow_ : pyval) (limit : pyval)
  : list trader :=
  match bind_parameters 2 [trade_flow_; limit] with
  | Ok [flow; bound] =>
      match numeric_affinity bound with
      | SqlInt n =>
          let rows :=
            filter (fun r => where_eq TEXT (trade_flow r) flow = true
                             ∧ is_null (trade_value r) = false)
                   (map fields (trade_data db)) in
          let groups :=
            group_by (fun r1 r2 => same_cell (reporter_code r1) (reporter_code r2)
                                   && same_cell (reporter_name r1) (reporter_name r2))
                     rows in
          let totals :=
            map (fun g =>
                   {| trader_name := default SqlNull (reporter_name <$> head g);
                      total_value := sql_sum (map trade_value g);
                      record_count := Z.of_nat (length g) |}) groups in
          let sorted := merge_sort by_total_value totals in
          if Z.ltb n 0 then sorted else take (Z.to_nat n) sorted
      | _ => []
      end
  | _ => []
  end.

(** A row of the result of [get_trade_trends]:
    [year, trade_flow, total_value]. *)
Record trend := {
  trend_year : sqlval;
  trend_flow : sqlval;
  trend_value : sqlval
}.

(** [ORDER BY year]. *)
Definition by_year (a b : trend) : Prop :=
  sql_compare (trend_year a) (trend_year b) ≠ Gt.

(** [get_trade_trends(country_code=None)]. *)
Definition get_trade_trends (db : database) (country_code_ : pyval) : list trend :=
  let selected : result (list trade_record) :=
    if truthy country_code_ then
      bound ← bind_parameters 1 [country_code_];
      match bound with
      | [code] =>
          Ok (filter (fun r => where_eq TEXT (reporter_code r) code = true
                               ∧ is_null (trade_value r) = false)
                     (map fields (trade_data db)))
      | _ => Raise ProgrammingError
      end
    else
      Ok (filter (fun r => is_null (trade_value r) = false)
                 (map fields (trade_data db))) in
  match selected with
  | Ok rows =>
      let groups :=
        group_by (fun r1 r2 => same_cell (year r1) (year r2)
                               && same_cell (trade_flow r1) (trade_flow r2))
                 rows in
      merge_sort by_year
        (map (fun g =>
                {| trend_year := default SqlNull (year <$> head g);
                   trend_flow := default SqlNull (trade_flow <$> head g);
                   trend_value := sql_sum (map trade_value g) |}) groups)
  | Raise _ => []
  end.

End Queries.

(** [ORDER BY name] and [ORDER BY code]. *)
Definition by_name (a b : country) : Prop :=
  sql_compare (country_name a) (country_name b) ≠ Gt.

Definition by_code (a b : hs) : Prop :=
  sql_compare (hs_code_ a) (hs_code_ b) ≠ Gt.

(** [get_countries()]: [SELECT * FROM countries ORDER BY name]. *)
Definition get_countries (db : database) : list country :=
  merge_sort by_name (countries db).

(** [get_hs_codes()]: [SELECT * FROM hs_codes ORDER BY code]. *)
Definition get_hs_codes (db : database) : list hs :=
  merge_sort by_code (hs_codes db).

End DatabaseManager.
Export DatabaseManager.

(** ** [data_extractor.py]: class [ComtradeDataExtractor] *)

Module ComtradeDataExtractor.

(** [config.py]. *)
Definition RATE_LIMIT_FREE : Z := 100.
Definition RATE_LIMIT_PREMIUM : Z := 10000.

(** The attributes of the extractor the modelled methods read or write.
    A request time is a [datetime], in microseconds. *)
Record extractor := {
  api_key : string;
  db_manager : database;
  max_requests_per_hour : Z;
  requests_made : list Z
}.

(** [__init__(api_key)], on the database [db] the manager opens;
    [COMTRADE_API_KEY] is the key of the configuration. *)
Definition init (COMTRADE_API_KEY : string) (api_key : string) (db : database)
  : extractor :=
  let key := if truthy (PyStr api_key) then api_key else COMTRADE_API_KEY in
  {| api_key := key;
     db_manager := db;
     max_requests_per_hour :=
       if truthy (PyStr key) then RATE_LIMIT_PREMIUM else RATE_LIMIT_FREE;
     requests_made := [] |}.

Definition one_hour : Z := 3600 * 1000000.
Definition one_day : Z := 86400 * 1000000.

(** [td.seconds] of the [timedelta] of [d] microseconds: a [timedelta]
    is kept as days, seconds in [0, 86400) and microseconds in
    [0, 10^6), and [.seconds] is the middle one. *)
Definition seconds (d : Z) : Z := (d mod 86400000000) / 1000000.

(** [check_rate_limit()] at the time [now]: the new state, and the
    seconds the call sleeps before it returns. *)
Definition check_rate_limit (self : extractor) (now : Z) : extractor * Z :=
  let kept :=
    filter (fun req_time => seconds (now - req_time) < 3600) (requests_made self) in
  if Z.geb (Z.of_nat (length kept)) (max_requests_per_hour self) then
    ({| api_key := api_key self;
        db_manager := db_manager self;
        max_requests_per_hour := max_requests_per_hour self;
        requests_made := [] |}, 3600)
  else
    ({| api_key := api_key self;
        db_manager := db_manager self;
        max_requests_per_hour := max_requests_per_hour self;
        requests_made := kept |}, 0).

(** What [session.get] does: it raises a [RequestException], or it
    returns at the time [finished] a response with a status and a body
    that is JSON or not. *)
Inductive outcome :=
  | RequestException
  | Response (finished : Z) (status_code : Z) (json : option pyval).

(** [make_request(url)] at the time [now]: the new state, the seconds
    slept before the request, and the value returned. *)
Definition make_request (self : extractor) (now : Z) (http : outcome)
  : extractor * Z * pyval :=
  let '(self, slept) := check_rate_limit self now in
  match http with
  | RequestException => (self, slept, PyNone)
  | Response finished status_code json =>
      let self :=
        {| api_key := api_key self;
           db_manager := db_manager self;
           max_requests_per_hour := max_requests_per_hour self;
           requests_made := requests_made self ++ [finished] |} in
      if Z.eqb status_code 200 then
        match json with
        | Some v => (self, slept, v)
        | None => (self, slept, PyNone)
        end
      else (self, slept, PyNone)
  end.

Section Mapping.
Context {RT : Runtime}.

(** [float(record.get(key, 0)) if record.get(key) else None]. *)
Definition numeric_field (record : pyval) (key : string) : result pyval :=
  test ← get record key PyNone;
  if truthy test then
    v ← get record key (PyInt 0);
    q ← float v;
    Ok (PyFloat q)
  else Ok PyNone.

(** The tuple built from one record of the response. *)
Definition data_record (reporter year hs_code : pyval) (record : pyval)
  : result (list pyval) :=
  period ← get record "period" year;
  reporterCode ← get record "reporterCode" reporter;
  reporterDesc ← get record "reporterDesc" (PyStr "");
  partnerCode ← get record "partnerCode" (PyStr "");
  partnerDesc ← get record "partnerDesc" (PyStr "");
  flowDesc ← get record "flowDesc" (PyStr "Import");
  cmdCode ← get record "cmdCode" hs_code;
  cmdDesc ← get record "cmdDesc" (PyStr "");
  tradeValue ← numeric_field record "tradeValue";
  qty ← numeric_field record "qty";
  qtyUnitAbbr ← get record "qtyUnitAbbr" (PyStr "");
  Ok [period; PyNone; reporterCode; reporterDesc; partnerCode; partnerDesc;
      flowDesc; cmdCode; cmdDesc; tradeValue; qty; qtyUnitAbbr].

(** The loop over [response['data']]: a record whose tuple raises
    [ValueError] or [TypeError] is passed over, any other exception
    leaves the loop. *)
Fixpoint map_records (reporter year hs_code : pyval) (records : list pyval)
    (data_records : list (list pyval)) : result (list (list pyval)) :=
  match records with
  | [] => Ok data_records
  | record :: records' =>
      match data_record reporter year hs_code record with
      | Ok t => map_records reporter year hs_code records' (data_records ++ [t])
      | Raise ValueError | Raise TypeError =>
          map_records reporter year hs_code records' data_records
      | Raise e => Raise e
      end
  end.

(** The body of the outer [try] of [extract_trade_data_free_api], from
    the response on. *)
Definition store_response (db : database) (reporter year hs_code : pyval)
    (response : pyval) : database * result Z :=
  let parsed :=
    if truthy response then
      present ← contains "data" response;
      if (present : bool) then
        data ← getitem response "data";
        records ← iter data;
        data_records ← map_records reporter year hs_code records [];
        Ok (Some data_records)
      else Ok None
    else Ok None in
  match parsed with
  | Ok (Some data_records) =>
      match data_records with
      | _ :: _ =>
          match insert_trade_data db data_records with
          | (db', Ok _) => (db', Ok (Z.of_nat (length data_records)))
          | (db', Raise e) => (db', Raise e)
          end
      | [] => (db, Ok 0)
      end
  | Ok None => (db, Ok 0)
  | Raise e => (db, Raise e)
  end.

(** [extract_trade_data_free_api(reporter, partner, year, hs_code)] at
    the time [now], with [http] what the request meets: the new state
    and the number returned. *)
Definition extract_trade_data_free_api (self : extractor) (now : Z) (http : outcome)
    (reporter partner year hs_code : pyval) : extractor * Z :=
  let '(self, _, response) := make_request self now http in
  let '(db, r) := store_response (db_manager self) reporter year hs_code response in
  ({| api_key := api_key self;
      db_manager := db;
      max_requests_per_hour := max_requests_per_hour self;
      requests_made := requests_made self |},
   match r with
   | Ok n => n
   | Raise _ => 0
   end).

End Mapping.

(** [config.py]: [HS_CATEGORIES], in the order of the dictionary, and
    [DEFAULT_COUNTRIES]. *)
Definition HS_CATEGORIES : list (string * string) :=
  [("01", "Live animals");
   ("02", "Meat and edible meat offal");
   ("03", "Fish and crustaceans");
   ("04", "Dairy produce");
   ("05", "Products of animal origin");
   ("06", "Live trees and other plants");
   ("07", "Edible vegetables");
   ("08", "Edible fruit and nuts");
   ("09", "Coffee, tea, mate and spices");
   ("10", "Cereals");
   ("27", "Mineral fuels, oils and waxes");
   ("84", "Nuclear reactors, boilers, machinery");
   ("85", "Electrical machinery and equipment");
   ("87", "Vehicles other than railway")].

Definition DEFAULT_COUNTRIES : list string :=
  ["USA"; "CHN"; "DEU"; "JPN"; "GBR"; "FRA"; "IND"; "ITA"; "BRA"; "CAN"].

(** The list [countries_data] of [get_country_codes]. *)
Definition countries_data : list (string * string * string) :=
  [("USA", "United States of America", "Americas");
   ("CHN", "China", "Asia");
   ("DEU", "Germany", "Europe");
   ("JPN", "Japan", "Asia");
   ("GBR", "United Kingdom", "Europe");
   ("FRA", "France", "Europe");
   ("IND", "India", "Asia");
   ("ITA", "Italy", "Europe");
   ("BRA", "Brazil", "Americas");
   ("CAN", "Canada", "Americas");
   ("RUS", "Russian Federation", "Europe");
   ("KOR", "Republic of Korea", "Asia");
   ("ESP", "Spain", "Europe");
   ("AUS", "Australia", "Oceania");
   ("MEX", "Mexico", "Americas");
   ("IDN", "Indonesia", "Asia");
   ("NLD", "Netherlands", "Europe");
   ("SAU", "Saudi Arabia", "Asia");
   ("TUR", "Turkey", "Asia");
   ("CHE", "Switzerland", "Europe")].

Definition with_db_manager (self : extractor) (db : database) : extractor :=
  {| api_key := api_key self;
     db_manager := db;
     max_requests_per_hour := max_requests_per_hour self;
     requests_made := requests_made self |}.

(** A tuple of three texts. *)
Definition triple (r : string * string * string) : list pyval :=
  [PyStr r.1.1; PyStr r.1.2; PyStr r.2].

Section Pipeline.
Context {RT : Runtime}.

(** [get_country_codes()]: the exception of the insert is logged and
    goes no further. *)
Definition get_country_codes (self : extractor) : extractor :=
  with_db_manager self
    (insert_countries (db_manager self) (map triple countries_data)).1.

(** [get_hs_codes()]: one tuple [(code, description, 'Various')] for
    each item of [HS_CATEGORIES]. *)
Definition get_hs_codes (self : extractor) : extractor :=
  with_db_manager self
    (insert_hs_codes (db_manager self)
       (map (fun cd : string * string => triple (cd.1, cd.2, "Various"))
            HS_CATEGORIES)).1.

(** [extract_specific_data(reporter_code, partner_code='all', year=2023,
    hs_code='TOTAL')]. *)
Definition extract_specific_data (self : extractor) (now : Z) (http : outcome)
    (reporter_code partner_code year hs_code : pyval) : extractor * Z :=
  extract_trade_data_free_api self now http reporter_code partner_code year hs_code.

(** A loop of calls [extract_trade_data_free_api(reporter=..., year=...,
    hs_code='TOTAL')] that adds up what they return; the request
    numbered [i] is made at the time [(world i).1] and meets
    [(world i).2]. The sleep after each call is part of these times. *)
Fixpoint extract_each (world : nat → Z * outcome) (i : nat)
    (calls : list (string * Z)) (self : extractor) (total_records : Z)
  : extractor * Z :=
  match calls with
  | [] => (self, total_records)
  | (reporter, y) :: calls' =>
      let '(self', records) :=
        extract_trade_data_free_api self (world i).1 (world i).2
          (PyStr reporter) (PyStr "all") (PyInt y) (PyStr "TOTAL") in
      extract_each world (S i) calls' self' (total_records + records)
  end.

(** [update_recent_data()] in the year [current_year]: the two years
    before, and for each the first five of [DEFAULT_COUNTRIES]. *)
Definition update_recent_data (self : extractor) (current_year : Z)
    (world : nat → Z * outcome) : extractor * Z :=
  extract_each world 0
    (y ← [current_year - 1; current_year - 2];
     reporter ← take 5 DEFAULT_COUNTRIES;
     [(reporter, y)])
    self 0.

End Pipeline.

End ComtradeDataExtractor.
Export ComtradeDataExtractor.

(** ** A runtime to run the definitions on examples

    It reads and writes decimal integers only. The theorems below hold
    for every runtime; this one serves where a closed example needs one. *)

Definition decimal (s : string) : option Z :=
  Z.of_int <$> NilZero.int_of_string s.

Definition decimal_runtime : Runtime :=
  {| float_of_str s := inject_Z <$> decimal s;
     str_of_other _ := "";
     numeric_literal s := NInt <$> decimal s;
     text_of_real q := str_of_int (Qnum q / Zpos (Qden q));
     real_of_text s := default 0%Q (inject_Z <$> decimal s) |}.

(** ** Notions the statements use *)

(** A character that LIKE reads as itself and as nothing else: not a
    wildcard, and not a letter of ASCII. *)
Definition is_letter (c : ascii) : bool :=
  let n := N_of_ascii c in
  (N.leb 65 n && N.leb n 90) || (N.leb 97 n && N.leb n 122).

Definition plain_char (c : ascii) : bool :=
  negb (Ascii.eqb c "%") && negb (Ascii.eqb c "_") && negb (is_letter c).

Fixpoint plain (f : string) : bool :=
  match f with
  | EmptyString => true
  | String c f' => plain_char c && plain f'
  end.

(** The cell, read as text, begins with [f]. *)
Definition begins_with {RT : Runtime} (f : string) (v : sqlval) : bool :=
  match text_affinity v with
  | SqlText s => String.prefix f s
  | _ => false
  end.

(** A record the loop of [extract_trade_data_free_api] passes over. *)
Definition passed_over {RT : Runtime} (reporter year hs_code record : pyval) : Prop :=
  data_record reporter year hs_code record = Raise ValueError ∨
  data_record reporter year hs_code record = Raise TypeError.

(** A row for examples: an import of the commodity [code], worth [value],
    reported by the USA for the year [y]. *)
Definition sample (y : Z) (code : string) (value : sqlval) : trade_record :=
  {| year := SqlInt y; month := SqlNull;
     reporter_code := SqlText "USA";
     reporter_name := SqlText "United States of America";
     partner_code := SqlText "CHN"; partner_name := SqlText "China";
     trade_flow := SqlText "Import"; hs_code := SqlText code;
     hs_description := SqlText ""; trade_value := value;
     quantity := SqlNull; unit_ := SqlText "KG" |}.

(** The database that holds the records [rs], numbered from 1. *)
Definition table (rs : list trade_record) : database :=
  {| trade_data :=
       imap (fun i r => {| rowid := Z.of_nat i + 1; fields := r |}) rs;
     trade_data_seq := Z.of_nat (length rs);
     countries := []; hs_codes := [] |}.

(** The parameter tuple of the record of [sample]. *)
Definition sample_tuple (y : Z) (code : string) (value : pyval) : list pyval :=
  [PyInt y; PyNone; PyStr "USA"; PyStr "United States of America"; PyStr "CHN";
   PyStr "China"; PyStr "Import"; PyStr code; PyStr ""; value; PyNone; PyStr "KG"].

(** What the test of [key] adds to the query: a condition and its
    parameter, or nothing; and the five of them in the order of the
    source. *)
Section Clauses.
Context {RT : Runtime}.

Definition clause (filters : gmap string pyval) (key : string)
    (text : condition) (param : pyval → pyval) : list (condition * pyval) :=
  match filters !! key with
  | Some v => if truthy v then [(text, param v)] else []
  | None => []
  end.

Definition clauses (filters : gmap string pyval) : list (condition * pyval) :=
  clause filters "year" (AndEquals Year) id ++
  clause filters "reporter_code" (AndEquals ReporterCode) id ++
  clause filters "partner_code" (AndEquals PartnerCode) id ++
  clause filters "trade_flow" (AndEquals TradeFlow) id ++
  clause filters "hs_code" (AndLike HsCode) (fun v => PyStr (format v ++ "%")%string).

End Clauses.

(** No row of the table has the key of a row after it. *)
Definition keys_differ {A} (key : A → sqlval) (table : list A) : Prop :=
  StronglySorted (λ a b, same_key (key a) (key b) = false) table.

(** The groups have the first rows [heads]: the rows of a group are in
    the group of its first row, and the first rows of two groups are not
    in one group. *)
Definition grouped (same : trade_record → trade_record → bool)
    (groups : list (list trade_record)) (heads : list trade_record) : Prop :=
  Forall2 (λ g a, head g = Some a ∧ Forall (λ b, same a b = true) g) groups heads ∧
  StronglySorted (λ a b, same a b = false) heads.

(** The rows agree on the two columns [f] and [g]: the test of a
    GROUP BY on them. *)
Definition same_pair (f g : trade_record → sqlval) (r1 r2 : trade_record) : bool :=
  same_cell (f r1) (f r2) && same_cell (g r1) (g r2).

(** Two rows of a result of [get_trade_trends] for one year and flow. *)
Definition same_trend (a b : trend) : Prop :=
  sql_compare (trend_year a) (trend_year b) = Eq ∧
  sql_compare (trend_flow a) (trend_flow b) = Eq.

(** The rows three texts are stored as. *)
Definition country_row (r : string * string * string) : country :=
  {| country_code := SqlText r.1.1; country_name := SqlText r.1.2;
     country_region := SqlText r.2 |}.

Definition hs_row (r : string * string * string) : hs :=
  {| hs_code_ := SqlText r.1.1; hs_description_ := SqlText r.1.2;
     hs_section := SqlText r.2 |}.

Definition country_code_text (row : country) : string :=
  match country_code row with SqlText s => s | _ => "" end.

Definition hs_code_text (row : hs) : string :=
  match hs_code_ row with SqlText s => s | _ => "" end.

(** * Properties *)

(** ** The rate limiter *)

Open Scope list_scope.
Open Scope Z_scope.

Section RateLimiter.

Lemma seconds_within_a_day d :
  0 ≤ d < one_day → seconds d = d / 1000000.
Proof.
  intros Hd. unfold seconds, one_day in *.
  rewrite Z.mod_small by lia. reflexivity.
Qed.

(** Within a day the test of the comprehension is the test of the age. *)
Lemma counted_within_a_day now req_time :
  0 ≤ now - req_time < one_day →
  (seconds (now - req_time) < 3600 ↔ now - req_time < one_hour).
Proof.
  intros Hd. rewrite seconds_within_a_day by done.
  unfold one_hour, one_day in *. split; intros H.
  - apply Z.nle_gt. intros Hge.
    assert (3600 ≤ (now - req_time) / 1000000) by (apply Z.div_le_lower_bound; lia).
    lia.
  - apply Z.div_lt_upper_bound; lia.
Qed.

(** The age wraps around at each day: a day later the test gives the
    same answer. *)
Lemma seconds_a_day_later d : seconds (d + one_day) = seconds d.
Proof.
  unfold seconds, one_day.
  replace (d + 86400 * 1000000) with (d + 1 * 86400000000) by lia.
  by rewrite Z.mod_add.
Qed.

(** When the requests that stay reach the ceiling the call sleeps an
    hour and forgets them all. *)
Lemma check_rate_limit_at_ceiling self now :
  max_requests_per_hour self ≤
    Z.of_nat (length (filter (λ t, seconds (now - t) < 3600) (requests_made self))) →
  (check_rate_limit self now).2 = 3600 ∧
  requests_made (check_rate_limit self now).1 = [].
Proof.
  intros H. unfold check_rate_limit.
  destruct (Z.geb_spec
    (Z.of_nat (length (filter (λ t, seconds (now - t) < 3600) (requests_made self))))
    (max_requests_per_hour self)) as [_|Hlt]; [done | lia].
Qed.

(** Below the ceiling the call returns at once and keeps the requests
    that passed the test. *)
Lemma check_rate_limit_below_ceiling self now :
  Z.of_nat (length (filter (λ t, seconds (now - t) < 3600) (requests_made self)))
    < max_requests_per_hour self →
  (check_rate_limit self now).2 = 0 ∧
  requests_made (check_rate_limit self now).1 =
    filter (λ t, seconds (now - t) < 3600) (requests_made self).
Proof.
  intros H. unfold check_rate_limit.
  destruct (Z.geb_spec
    (Z.of_nat (length (filter (λ t, seconds (now - t) < 3600) (requests_made self))))
    (max_requests_per_hour self)) as [Hge|_]; [lia | done].
Qed.

(** Two calls in the last 55 minutes under a ceiling of 2: the next
    call sleeps. *)
Lemma two_calls_in_55_minutes_suspend key db t1 t2 now :
  0 ≤ now - t1 ≤ 55 * 60 * 1000000 →
  0 ≤ now - t2 ≤ 55 * 60 * 1000000 →
  check_rate_limit
    {| api_key := key; db_manager := db; max_requests_per_hour := 2;
       requests_made := [t1; t2] |} now
  = ({| api_key := key; db_manager := db; max_requests_per_hour := 2;
        requests_made := [] |}, 3600).
Proof.
  intros H1 H2. unfold check_rate_limit. simpl requests_made.
  assert (Hc : ∀ t, 0 ≤ now - t ≤ 55 * 60 * 1000000 → seconds (now - t) < 3600).
  { intros t Ht. apply counted_within_a_day; unfold one_day, one_hour; lia. }
  rewrite !filter_cons, filter_nil.
  rewrite !decide_True by auto. reflexivity.
Qed.

(** A request whole days and less than an hour old passes the test of
    the comprehension, and so stays in the window when the call does
    not sleep, however many days old it is. *)
Lemma request_of_days_ago_is_counted self now req_time k :
  0 < k →
  0 ≤ now - req_time - k * one_day < one_hour →
  req_time ∈ requests_made self →
  one_hour < now - req_time ∧
  seconds (now - req_time) < 3600 ∧
  ((check_rate_limit self now).2 = 0 →
   req_time ∈ requests_made (check_rate_limit self now).1).
Proof.
  intros Hk Hage Hin.
  assert (Hs : seconds (now - req_time) < 3600).
  { replace (now - req_time) with (now - req_time - k * one_day + k * 86400000000)
      by (unfold one_day; lia).
    unfold seconds. rewrite Z.mod_add by lia.
    change (seconds (now - req_time - k * one_day) < 3600).
    apply counted_within_a_day; unfold one_day, one_hour in *; lia. }
  split_and!; [unfold one_day, one_hour in *; nia | done |].
  unfold check_rate_limit.
  destruct (Z.geb _ _); simpl; [done|]. intros _.
  apply list_elem_of_filter. done.
Qed.

(** C1, at the failing input: under a ceiling of 2, with one request
    made a day and ten seconds ago and one made ten seconds ago, the
    request of yesterday is older than an hour and is not discarded; it
    is counted, and the call sleeps an hour although the last hour saw
    one request only. *)
Theorem check_rate_limit_counts_request_of_yesterday :
  let self := {| api_key := ""; db_manager := empty; max_requests_per_hour := 2;
                 requests_made := [0; one_day] |} in
  let now := one_day + 10 * 1000000 in
  one_hour < now - 0 ∧
  filter (λ t, seconds (now - t) < 3600) (requests_made self) = [0; one_day] ∧
  filter (λ t, now - t < one_hour) (requests_made self) = [one_day] ∧
  (check_rate_limit self now).2 = 3600.
Proof. vm_compute. repeat split; reflexivity. Qed.

End RateLimiter.

(** ** Writing *)

Section Writes.
Context {RT : Runtime}.

(** *** Helpers *)

Lemma bind_Ok {A B} (r : result A) (k : A → result B) b :
  r ≫= k = Ok b ↔ ∃ a, r = Ok a ∧ k a = Ok b.
Proof.
  destruct r as [a|e]; simpl; split.
  - intros H. by exists a.
  - by intros (a' & [= ->] & H).
  - done.
  - by intros (a' & [=] & _).
Qed.

Lemma fold_max_nonneg l : 0 ≤ fold_right Z.max 0 l.
Proof. induction l; simpl; lia. Qed.

Lemma fold_max_from l a :
  fold_right Z.max (Z.max a 0) l = Z.max a (fold_right Z.max 0 l).
Proof. induction l; simpl; [lia|]. rewrite IHl. lia. Qed.

Lemma rowid_below_next db r : r ∈ trade_data db → rowid r < next_rowid db.
Proof.
  unfold next_rowid. generalize (trade_data_seq db). intros s.
  induction (trade_data db) as [|r' l IH]; intros Hin.
  - by apply elem_of_nil in Hin.
  - apply elem_of_cons in Hin as [->|Hin]; simpl.
    + lia.
    + specialize (IH Hin). lia.
Qed.

Lemma filter_other_rowids db n :
  (∀ r, r ∈ trade_data db → rowid r < n) →
  filter (λ r, rowid r ≠ n) (trade_data db) = trade_data db.
Proof.
  intros H. induction (trade_data db) as [|r l IH]; [done|].
  rewrite filter_cons. rewrite decide_True.
  - f_equal. apply IH. intros r' Hr'. apply H. by right.
  - assert (rowid r < n) by (apply H; by left). lia.
Qed.

Lemma insert_trade_row_Ok db t db' :
  insert_trade_row db t = Ok db' →
  ∃ record,
    trade_record_of t = Ok record ∧
    trade_data db' = trade_data db ++ [{| rowid := next_rowid db; fields := record |}] ∧
    next_rowid db' = next_rowid db + 1 ∧
    countries db' = countries db ∧ hs_codes db' = hs_codes db.
Proof.
  unfold insert_trade_row. intros H.
  apply bind_Ok in H as (record & Hrec & H). exists record. split; [done|].
  simpl in H. destruct (in_int64 (next_rowid db)); [|done].
  injection H as <-. simpl.
  rewrite filter_other_rowids by (intros; by apply rowid_below_next).
  repeat split; try done.
  unfold next_rowid. simpl.
  rewrite map_app, fold_right_app. simpl.
  rewrite fold_max_from.
  pose proof (fold_max_nonneg (map rowid (trade_data db))). lia.
Qed.

Lemma executemany_insert_Ok l : ∀ db db',
  executemany insert_trade_row db l = Ok db' →
  ∃ rows,
    trade_data db' = trade_data db ++ rows ∧
    Forall2 (λ t row, trade_record_of t = Ok (fields row)) l rows ∧
    map rowid rows = seqZ (next_rowid db) (Z.of_nat (length l)) ∧
    next_rowid db' = next_rowid db + Z.of_nat (length l) ∧
    countries db' = countries db ∧ hs_codes db' = hs_codes db.
Proof.
  induction l as [|t l IH]; intros db db' H; simpl in H.
  - injection H as <-. exists []. rewrite app_nil_r. split_and!; try done. simpl. lia.
  - apply bind_Ok in H as (db1 & H1 & H).
    apply insert_trade_row_Ok in H1 as (record & Hrec & Hdata & Hnext & Hc & Hh).
    apply IH in H as (rows & Hrows & Hall & Hids & Hnext' & Hc' & Hh').
    exists ({| rowid := next_rowid db; fields := record |} :: rows).
    repeat split.
    + rewrite Hrows, Hdata, <- app_assoc. done.
    + by constructor.
    + simpl length. rewrite seqZ_cons by lia. simpl. f_equal.
      rewrite Hids, Hnext. f_equal; lia.
    + simpl length. lia.
    + congruence.
    + congruence.
Qed.

Lemma insert_trade_data_Ok db l db' :
  insert_trade_data db l = (db', Ok ()) →
  executemany insert_trade_row db l = Ok db'.
Proof.
  unfold insert_trade_data, transaction.
  destruct (executemany insert_trade_row db l); [|done]. by intros [= ->].
Qed.

(** C8. A batch is all or nothing: either [insert_trade_data] returns
    normally and the table is the old one followed by one row for each
    tuple of the batch, in order, or it raises and the database is the
    one before the call. *)
Theorem insert_trade_data_atomic db data_list :
  match insert_trade_data db data_list with
  | (db', Ok _) =>
      ∃ rows,
        trade_data db' = trade_data db ++ rows ∧
        Forall2 (λ t row, trade_record_of t = Ok (fields row)) data_list rows ∧
        countries db' = countries db ∧ hs_codes db' = hs_codes db
  | (db', Raise e) => db' = db
  end.
Proof.
  unfold insert_trade_data, transaction.
  destruct (executemany insert_trade_row db data_list) as [db'|e] eqn:E; [|done].
  apply executemany_insert_Ok in E as (rows & ? & ? & _ & _ & ? & ?).
  by exists rows.
Qed.

(** A tuple that cannot be bound fails the batch it is in, wherever it
    stands, and nothing of the batch is kept. *)
Lemma executemany_insert_Raise l1 : ∀ db bad l2 e,
  Forall (λ t, ∃ record, trade_record_of t = Ok record) l1 →
  next_rowid db + Z.of_nat (length l1) ≤ 2 ^ 63 →
  trade_record_of bad = Raise e →
  executemany insert_trade_row db (l1 ++ bad :: l2) = Raise e.
Proof.
  induction l1 as [|t l1 IH]; intros db bad l2 e Hall Hroom Hbad; simpl.
  - unfold insert_trade_row. by rewrite Hbad.
  - apply Forall_cons in Hall as [(record & Hrec) Hall].
    destruct (insert_trade_row db t) as [db1|e1] eqn:E1; simpl.
    + apply insert_trade_row_Ok in E1 as (? & _ & _ & Hnext & _).
      apply IH; [done | simpl length in Hroom; lia | done].
    + exfalso. unfold insert_trade_row in E1. rewrite Hrec in E1. simpl in E1.
      assert (in_int64 (next_rowid db) = true) as Hin; [|by rewrite Hin in E1].
      unfold in_int64, next_rowid in *.
      pose proof (fold_max_nonneg (map rowid (trade_data db))).
      simpl length in Hroom.
      apply andb_true_intro; split; apply Z.leb_le; lia.
Qed.

(** C2. Two calls that both succeed: the second adds as many rows as
    its batch has tuples, and a tuple that is in both batches is in the
    table twice, as two rows with the same columns and two rowids. *)
Theorem insert_trade_data_no_dedup db l1 l2 db1 db2 t :
  t ∈ l1 → t ∈ l2 →
  insert_trade_data db l1 = (db1, Ok ()) →
  insert_trade_data db1 l2 = (db2, Ok ()) →
  length (trade_data db2) = (length (trade_data db1) + length l2)%nat ∧
  ∃ i j r1 r2,
    trade_data db2 !! i = Some r1 ∧ trade_data db2 !! j = Some r2 ∧
    i ≠ j ∧ rowid r1 ≠ rowid r2 ∧
    trade_record_of t = Ok (fields r1) ∧ fields r1 = fields r2.
Proof.
  intros Hin1 Hin2 H1 H2.
  apply insert_trade_data_Ok, executemany_insert_Ok in H1
    as (rows1 & Hd1 & Hall1 & Hids1 & Hnext1 & _).
  apply insert_trade_data_Ok, executemany_insert_Ok in H2
    as (rows2 & Hd2 & Hall2 & Hids2 & Hnext2 & _).
  split.
  { rewrite Hd2, length_app. by rewrite (Forall2_length _ _ _ Hall2). }
  apply list_elem_of_lookup in Hin1 as [i1 Hi1].
  apply list_elem_of_lookup in Hin2 as [i2 Hi2].
  destruct (Forall2_lookup_l _ _ _ _ _ Hall1 Hi1) as (r1 & Hr1 & Ht1).
  destruct (Forall2_lookup_l _ _ _ _ _ Hall2 Hi2) as (r2 & Hr2 & Ht2).
  exists (length (trade_data db) + i1)%nat,
         (length (trade_data db1) + i2)%nat, r1, r2.
  assert (Hid1 : rowid r1 = next_rowid db + Z.of_nat i1).
  { assert (map rowid rows1 !! i1 = Some (rowid r1)) as Hm
      by (by rewrite list_lookup_fmap, Hr1).
    rewrite Hids1 in Hm. apply lookup_seqZ in Hm. lia. }
  assert (Hid2 : rowid r2 = next_rowid db1 + Z.of_nat i2).
  { assert (map rowid rows2 !! i2 = Some (rowid r2)) as Hm
      by (by rewrite list_lookup_fmap, Hr2).
    rewrite Hids2 in Hm. apply lookup_seqZ in Hm. lia. }
  assert (i1 < length l1)%nat by (by eapply lookup_lt_Some).
  assert (length rows1 = length l1) by (symmetry; by eapply Forall2_length).
  repeat split.
  - rewrite Hd2, Hd1, <- app_assoc, lookup_app_r by lia.
    rewrite lookup_app_l by lia.
    by replace (length (trade_data db) + i1 - length (trade_data db))%nat with i1 by lia.
  - rewrite Hd2, lookup_app_r by lia.
    by replace (length (trade_data db1) + i2 - length (trade_data db1))%nat with i2 by lia.
  - rewrite Hd1, length_app. lia.
  - lia.
  - done.
  - congruence.
Qed.

End Writes.

(** ** Reference tables *)

Lemma string_compare_refl s : String.compare s s = Eq.
Proof.
  pose proof (String.compare_antisym s s) as H.
  destruct (String.compare s s); simpl in H; congruence.
Qed.

Lemma same_key_text s t : same_key (SqlText s) (SqlText t) = bool_decide (s = t).
Proof.
  unfold same_key. simpl. apply bool_decide_ext. split.
  - apply String.compare_eq_iff.
  - intros ->. apply string_compare_refl.
Qed.

Lemma same_key_text_r v s : same_key v (SqlText s) = bool_decide (v = SqlText s).
Proof.
  destruct v as [|n|q|t]; [done..|].
  rewrite same_key_text. apply bool_decide_ext. split; congruence.
Qed.

Lemma filter_none {A} (P : A → Prop) `{∀ x, Decision (P x)} (l : list A) :
  (∀ x, ¬ P x) → filter P l = [].
Proof.
  intros HP. induction l as [|x l IH]; [done|].
  by rewrite filter_cons_False.
Qed.

Section Upsert.
Context {A : Type} (key : A → sqlval).

Lemma replace_into_twice t row1 row2 s :
  key row1 = SqlText s → key row2 = SqlText s →
  replace_into key (replace_into key t row1) row2 = replace_into key t row2.
Proof.
  intros H1 H2. unfold replace_into. rewrite H1, H2.
  rewrite filter_app, filter_cons, filter_nil.
  rewrite decide_False by (rewrite H1, same_key_text, bool_decide_eq_true_2; done).
  rewrite app_nil_r. f_equal.
  rewrite list_filter_filter. apply list_filter_iff. tauto.
Qed.

Lemma replace_into_lookup t row s :
  key row = SqlText s →
  filter (λ r, key r = SqlText s) (replace_into key t row) = [row].
Proof.
  intros H. unfold replace_into. rewrite H.
  rewrite filter_app, filter_cons, filter_nil, decide_True by done.
  rewrite list_filter_filter.
  rewrite filter_none; [done|].
  intros r [Heq Hk]. rewrite Heq, same_key_text, bool_decide_eq_true_2 in Hk; done.
Qed.

Lemma replace_into_others t row s r :
  key row = SqlText s → key r ≠ SqlText s →
  r ∈ replace_into key t row ↔ r ∈ t.
Proof.
  intros H Hr. unfold replace_into. rewrite H.
  rewrite elem_of_app, list_elem_of_filter, list_elem_of_singleton.
  rewrite same_key_text_r. split.
  - intros [[_ ?]| ->]; [done | congruence].
  - intros ?. left. split; [by apply bool_decide_eq_false|done].
Qed.
End Upsert.

Section Ref.
Context {RT : Runtime}.

Lemma insert_countries_text db rows :
  insert_countries db
    (map (λ r : string * string * string, [PyStr r.1.1; PyStr r.1.2; PyStr r.2]) rows) =
  (with_countries db
     (fold_left (replace_into country_code)
        (map (λ r : string * string * string,
                {| country_code := SqlText r.1.1; country_name := SqlText r.1.2;
                   country_region := SqlText r.2 |}) rows)
        (countries db)), Ok ()).
Proof.
  unfold insert_countries, transaction.
  assert (∀ db, executemany insert_country db
    (map (λ r : string * string * string, [PyStr r.1.1; PyStr r.1.2; PyStr r.2]) rows) =
    Ok (with_countries db
     (fold_left (replace_into country_code)
        (map (λ r : string * string * string,
                {| country_code := SqlText r.1.1; country_name := SqlText r.1.2;
                   country_region := SqlText r.2 |}) rows)
        (countries db)))) as ->; [|done].
  induction rows as [|[[c n] r] rows IH]; intros db0.
  - by destruct db0.
  - simpl. rewrite IH. done.
Qed.

Lemma insert_hs_codes_text db rows :
  insert_hs_codes db
    (map (λ r : string * string * string, [PyStr r.1.1; PyStr r.1.2; PyStr r.2]) rows) =
  (with_hs_codes db
     (fold_left (replace_into hs_code_)
        (map (λ r : string * string * string,
                {| hs_code_ := SqlText r.1.1; hs_description_ := SqlText r.1.2;
                   hs_section := SqlText r.2 |}) rows)
        (hs_codes db)), Ok ()).
Proof.
  unfold insert_hs_codes, transaction.
  assert (∀ db, executemany insert_hs db
    (map (λ r : string * string * string, [PyStr r.1.1; PyStr r.1.2; PyStr r.2]) rows) =
    Ok (with_hs_codes db
     (fold_left (replace_into hs_code_)
        (map (λ r : string * string * string,
                {| hs_code_ := SqlText r.1.1; hs_description_ := SqlText r.1.2;
                   hs_section := SqlText r.2 |}) rows)
        (hs_codes db)))) as ->; [|done].
  induction rows as [|[[c n] r] rows IH]; intros db0.
  - by destruct db0.
  - simpl. rewrite IH. done.
Qed.

(** C3. The same code written twice, with two texts, to [countries]
    and to [hs_codes]: the second call returns normally; the table has
    one row of that code, the one written last; the rows of other codes
    are the ones there were; writing the last row once more changes
    nothing; and the two rows in one batch give the same table. *)
Theorem reference_upsert_last_write_wins db code text1 more1 text2 more2 :
  let db1 := (insert_countries db [[PyStr code; PyStr text1; PyStr more1]]).1 in
  let db2 := (insert_countries db1 [[PyStr code; PyStr text2; PyStr more2]]).1 in
  let db1' := (insert_hs_codes db [[PyStr code; PyStr text1; PyStr more1]]).1 in
  let db2' := (insert_hs_codes db1' [[PyStr code; PyStr text2; PyStr more2]]).1 in
  ((insert_countries db1 [[PyStr code; PyStr text2; PyStr more2]]).2 = Ok () ∧
   filter (λ r, country_code r = SqlText code) (countries db2) =
     [{| country_code := SqlText code; country_name := SqlText text2;
         country_region := SqlText more2 |}] ∧
   (∀ r, country_code r ≠ SqlText code → r ∈ countries db2 ↔ r ∈ countries db) ∧
   (insert_countries db2 [[PyStr code; PyStr text2; PyStr more2]]).1 = db2 ∧
   (insert_countries db
      [[PyStr code; PyStr text1; PyStr more1];
       [PyStr code; PyStr text2; PyStr more2]]).1 = db2) ∧
  ((insert_hs_codes db1' [[PyStr code; PyStr text2; PyStr more2]]).2 = Ok () ∧
   filter (λ r, hs_code_ r = SqlText code) (hs_codes db2') =
     [{| hs_code_ := SqlText code; hs_description_ := SqlText text2;
         hs_section := SqlText more2 |}] ∧
   (∀ r, hs_code_ r ≠ SqlText code → r ∈ hs_codes db2' ↔ r ∈ hs_codes db) ∧
   (insert_hs_codes db2' [[PyStr code; PyStr text2; PyStr more2]]).1 = db2' ∧
   (insert_hs_codes db
      [[PyStr code; PyStr text1; PyStr more1];
       [PyStr code; PyStr text2; PyStr more2]]).1 = db2').
Proof.
  intros db1 db2 db1' db2'.
  pose proof (insert_countries_text db [(code, text1, more1)]) as C1.
  pose proof (insert_countries_text db1 [(code, text2, more2)]) as C2.
  pose proof (insert_countries_text db2 [(code, text2, more2)]) as C3.
  pose proof (insert_countries_text db [(code, text1, more1); (code, text2, more2)]) as C4.
  pose proof (insert_hs_codes_text db [(code, text1, more1)]) as H1.
  pose proof (insert_hs_codes_text db1' [(code, text2, more2)]) as H2.
  pose proof (insert_hs_codes_text db2' [(code, text2, more2)]) as H3.
  pose proof (insert_hs_codes_text db [(code, text1, more1); (code, text2, more2)]) as H4.
  cbn [map fold_left fst snd] in *.
  assert (E1 : db1 = with_countries db (replace_into country_code (countries db)
     {| country_code := SqlText code; country_name := SqlText text1;
        country_region := SqlText more1 |})) by (unfold db1; by rewrite C1).
  assert (E1' : db1' = with_hs_codes db (replace_into hs_code_ (hs_codes db)
     {| hs_code_ := SqlText code; hs_description_ := SqlText text1;
        hs_section := SqlText more1 |})) by (unfold db1'; by rewrite H1).
  assert (E2 : db2 = with_countries db (replace_into country_code (countries db)
     {| country_code := SqlText code; country_name := SqlText text2;
        country_region := SqlText more2 |})).
  { unfold db2. rewrite C2, E1. cbn [fst with_countries countries].
    unfold with_countries. f_equal. by apply replace_into_twice with code. }
  assert (E2' : db2' = with_hs_codes db (replace_into hs_code_ (hs_codes db)
     {| hs_code_ := SqlText code; hs_description_ := SqlText text2;
        hs_section := SqlText more2 |})).
  { unfold db2'. rewrite H2, E1'. cbn [fst with_hs_codes hs_codes].
    unfold with_hs_codes. f_equal. by apply replace_into_twice with code. }
  clearbody db1 db2 db1' db2'. subst db1 db2 db1' db2'.
  rewrite C2, C3, C4, H2, H3, H4.
  unfold with_countries, with_hs_codes.
  cbn [fst snd countries hs_codes trade_data trade_data_seq].
  split; split_and!; try done.
  - by apply replace_into_lookup.
  - intros r Hr. by apply replace_into_others with code.
  - f_equal. by apply replace_into_twice with code.
  - f_equal. by apply replace_into_twice with code.
  - by apply replace_into_lookup.
  - intros r Hr. by apply replace_into_others with code.
  - f_equal. by apply replace_into_twice with code.
  - f_equal. by apply replace_into_twice with code.
Qed.
End Ref.

(** ** The order of a result *)

(** Orders given by a three-way comparison. *)
Section ThreeWay.
Context {A : Type} (cmp : A → A → comparison).
Hypothesis cmp_opp : ∀ a b, cmp a b = CompOpp (cmp b a).
Hypothesis cmp_le_trans : ∀ a b c, cmp a b ≠ Gt → cmp b c ≠ Gt → cmp a c ≠ Gt.

Lemma cmp_ge_trans a b c : cmp a b ≠ Lt → cmp b c ≠ Lt → cmp a c ≠ Lt.
Proof.
  intros H1 H2. rewrite cmp_opp in H1, H2 |- *.
  assert (cmp c a ≠ Gt); [|by destruct (cmp c a)].
  apply cmp_le_trans with b; [by destruct (cmp c b) | by destruct (cmp b a)].
Qed.

Lemma cmp_gt_ge a b c : cmp a b = Gt → cmp b c ≠ Lt → cmp a c = Gt.
Proof.
  intros H1 H2. destruct (cmp a c) eqn:E; [| |done]; exfalso.
  all: assert (Hba : cmp b a ≠ Lt)
         by (apply cmp_ge_trans with c; [done | by rewrite cmp_opp, E]).
  all: apply Hba; by rewrite cmp_opp, H1.
Qed.

Lemma cmp_ge_gt a b c : cmp a b ≠ Lt → cmp b c = Gt → cmp a c = Gt.
Proof.
  intros H1 H2. destruct (cmp a c) eqn:E; [| |done]; exfalso.
  all: assert (Hcb : cmp c b ≠ Lt)
         by (apply cmp_ge_trans with a; [by rewrite cmp_opp, E | done]).
  all: apply Hcb; by rewrite cmp_opp, H2.
Qed.

Lemma cmp_eq_trans a b c : cmp a b = Eq → cmp b c = Eq → cmp a c = Eq.
Proof.
  intros H1 H2.
  assert (cmp a c ≠ Gt) by (apply cmp_le_trans with b; congruence).
  assert (cmp a c ≠ Lt) by (apply cmp_ge_trans with b; congruence).
  by destruct (cmp a c).
Qed.
End ThreeWay.

Lemma string_compare_le_trans s : ∀ t u,
  String.compare s t ≠ Gt → String.compare t u ≠ Gt → String.compare s u ≠ Gt.
Proof.
  induction s as [|a s IH]; intros [|b t] [|c u]; simpl; try done.
  unfold Ascii.compare.
  destruct (N.compare_spec (N_of_ascii a) (N_of_ascii b)),
           (N.compare_spec (N_of_ascii b) (N_of_ascii c)),
           (N.compare_spec (N_of_ascii a) (N_of_ascii c));
    try done; try lia.
  apply IH.
Qed.

Lemma sql_compare_opp a b : sql_compare a b = CompOpp (sql_compare b a).
Proof.
  destruct a, b; simpl; try done;
    solve [ symmetry; apply Qcompare_antisym | apply String.compare_antisym ].
Qed.

Lemma sql_compare_le_trans a b c :
  sql_compare a b ≠ Gt → sql_compare b c ≠ Gt → sql_compare a c ≠ Gt.
Proof.
  destruct a, b, c; simpl; try done;
    try (rewrite <- !Qle_alt; apply Qle_trans);
    apply string_compare_le_trans.
Qed.

#[global] Instance order_by_total : Total order_by.
Proof.
  intros r1 r2. unfold order_by.
  rewrite (sql_compare_opp (year r2)), (sql_compare_opp (trade_value r2)).
  destruct (sql_compare (year r1) (year r2)); simpl; [|by right|by left].
  destruct (sql_compare (trade_value r1) (trade_value r2)); simpl; auto.
Qed.

#[global] Instance order_by_trans : Transitive order_by.
Proof.
  intros r1 r2 r3. unfold order_by.
  destruct (sql_compare (year r1) (year r2)) eqn:E12; [| done |];
  destruct (sql_compare (year r2) (year r3)) eqn:E23; try done; intros H12 H23.
  - rewrite (cmp_eq_trans _ sql_compare_opp sql_compare_le_trans _ _ _ E12 E23).
    by apply (cmp_ge_trans _ sql_compare_opp sql_compare_le_trans) with (trade_value r2).
  - rewrite (cmp_ge_gt _ sql_compare_opp sql_compare_le_trans _ (year r2)); [done| |done].
    by rewrite E12.
  - rewrite (cmp_gt_ge _ sql_compare_opp sql_compare_le_trans _ (year r2)); [done|done|].
    by rewrite E23.
  - rewrite (cmp_gt_ge _ sql_compare_opp sql_compare_le_trans _ (year r2)); [done|done|].
    by rewrite E23.
Qed.

(** ** Filters *)

Section Filters.
Context {RT : Runtime}.

Lemma add_filter_falsy (filters : gmap string pyval) k v key text param qp :
  truthy v = false →
  add_filter (<[k := v]> filters) key text param qp =
  add_filter (delete k filters) key text param qp.
Proof.
  intros Hv. unfold add_filter.
  destruct (decide (k = key)) as [->|Hne].
  - by rewrite lookup_insert_eq, lookup_delete_eq, Hv.
  - by rewrite lookup_insert_ne, lookup_delete_ne.
Qed.

Lemma conditions_falsy (filters : gmap string pyval) k v :
  truthy v = false → conditions (<[k := v]> filters) = conditions (delete k filters).
Proof. intros Hv. unfold conditions. by rewrite !add_filter_falsy. Qed.

Lemma conditions_empty : conditions ∅ = ([], []).
Proof. reflexivity. Qed.

Lemma build_query_Some (filters : gmap string pyval) :
  build_query (Some filters) = conditions filters.
Proof.
  unfold build_query. case_bool_decide as Hs; [done|].
  assert (filters = ∅) as -> by (apply map_size_empty_iff; lia).
  done.
Qed.

Lemma build_query_None : build_query None = conditions ∅.
Proof. reflexivity. Qed.

Lemma filter_all {A} (P : A → Prop) `{∀ x, Decision (P x)} (l : list A) :
  (∀ x, P x) → filter P l = l.
Proof.
  intros HP. induction l as [|x l IH]; [done|].
  rewrite filter_cons_True by done. by f_equal.
Qed.

Lemma get_trade_data_None db :
  get_trade_data db None = merge_sort order_by (map fields (trade_data db)).
Proof.
  unfold get_trade_data, read_sql_query. simpl.
  by rewrite filter_all.
Qed.

(** C10. A key bound to a value that is false in a test is a key that
    is not there: the result is the one without the key, and a
    dictionary with that key alone gives what no filter gives, all the
    rows. *)
Theorem falsy_filter_is_no_filter db (filters : gmap string pyval) key v :
  truthy v = false →
  get_trade_data db (Some (<[key := v]> filters)) =
    get_trade_data db (Some (delete key filters)) ∧
  get_trade_data db (Some {[ key := v ]}) = get_trade_data db None ∧
  get_trade_data db (Some {[ key := v ]}) ≡ₚ map fields (trade_data db).
Proof.
  intros Hv.
  assert (get_trade_data db (Some (<[key := v]> filters)) =
          get_trade_data db (Some (delete key filters))) as Hgen.
  { unfold get_trade_data. by rewrite !build_query_Some, conditions_falsy. }
  split; [done|].
  assert (get_trade_data db (Some {[ key := v ]}) = get_trade_data db None) as Hone.
  { unfold get_trade_data. rewrite build_query_Some, build_query_None.
    rewrite <- insert_empty, conditions_falsy by done. by rewrite delete_empty. }
  split; [done|]. rewrite Hone, get_trade_data_None. apply merge_sort_Permutation.
Qed.
End Filters.

Lemma StronglySorted_lookup {A} (R : relation A) l i j x y :
  StronglySorted R l → (i < j)%nat → l !! i = Some x → l !! j = Some y → R x y.
Proof.
  intros Hl. revert i j. induction Hl as [|a l Hl IH Ha]; intros i j Hij Hi Hj.
  - by rewrite lookup_nil in Hi.
  - destruct j as [|j]; [lia|]. destruct i as [|i]; simpl in *.
    + injection Hi as ->. rewrite Forall_forall in Ha. apply Ha.
      by eapply list_elem_of_lookup_2.
    + apply (IH i j); [lia|done..].
Qed.

Lemma sql_compare_null_ge v : sql_compare SqlNull v ≠ Lt → v = SqlNull.
Proof. by destruct v. Qed.

Lemma order_by_nulls_last r1 r2 :
  order_by r1 r2 →
  sql_compare (year r1) (year r2) ≠ Lt ∧
  (sql_compare (year r1) (year r2) = Eq →
     sql_compare (trade_value r1) (trade_value r2) ≠ Lt ∧
     (trade_value r1 = SqlNull → trade_value r2 = SqlNull)).
Proof.
  unfold order_by. destruct (sql_compare (year r1) (year r2)); [|done|].
  - intros H. split; [done|]. intros _. split; [done|].
    intros Hn. rewrite Hn in H. by apply sql_compare_null_ge.
  - intros _. split; done.
Qed.

Section Year.
Context {RT : Runtime}.

Lemma conditions_year n :
  n ≠ 0 → conditions {[ "year" := PyInt n ]} = ([AndEquals Year], [PyInt n]).
Proof.
  intros Hn. unfold conditions, add_filter.
  rewrite !lookup_singleton_ne by done. rewrite lookup_singleton_eq. simpl.
  by rewrite (proj2 (Z.eqb_neq n 0)).
Qed.

Lemma where_eq_year v n :
  where_eq INTEGER v (SqlInt n) = true ↔ sql_compare v (SqlInt n) = Eq.
Proof.
  unfold where_eq. simpl. destruct v; simpl; try done.
  - by destruct (inject_Z n0 ?= inject_Z n)%Q.
  - by destruct (q ?= inject_Z n)%Q.
Qed.

(** A year equals [n] when it is the integer [n] or a real of that value. *)
Lemma year_equals v n :
  sql_compare v (SqlInt n) = Eq ↔
  v = SqlInt n ∨ ∃ q, v = SqlReal q ∧ Qeq q (inject_Z n).
Proof.
  destruct v as [|m|q|s]; simpl.
  - split; [done | intros [?|(? & ? & _)]; done].
  - rewrite <- Qeq_alt. unfold Qeq. simpl. split.
    + intros H. left. f_equal. lia.
    + intros [[= ->]|(? & ? & _)]; [lia | done].
  - rewrite <- Qeq_alt. split.
    + intros H. right. by exists q.
    + intros [?|(q' & [= <-] & H)]; done.
  - split; [done | intros [?|(? & ? & _)]; done].
Qed.

Lemma get_trade_data_year db n :
  n ≠ 0 → in_int64 n = true →
  get_trade_data db (Some {[ "year" := PyInt n ]}) =
  merge_sort order_by
    (filter (λ r, sql_compare (year r) (SqlInt n) = Eq) (map fields (trade_data db))).
Proof.
  intros Hn Hin. unfold get_trade_data.
  rewrite build_query_Some, conditions_year by done. simpl.
  unfold read_sql_query, bind_parameters. simpl. rewrite Hin. simpl.
  f_equal. apply list_filter_iff. intros r. simpl.
  rewrite andb_true_r. unfold holds. simpl. apply where_eq_year.
Qed.

(** C5. For a year [n] that is not 0 (2022, say): the rows returned
    are the rows of the table whose year is [n], each as often as it is
    there; without a filter they are all the rows; and either result is
    in the order of year descending, then trade value descending, so
    that of two rows of one year the one with a NULL value comes last. *)
Theorem get_trade_data_by_year db n :
  n ≠ 0 → in_int64 n = true →
  let rows := map fields (trade_data db) in
  let by_year := get_trade_data db (Some {[ "year" := PyInt n ]}) in
  let all := get_trade_data db (Some ∅) in
  by_year ≡ₚ filter (λ r, sql_compare (year r) (SqlInt n) = Eq) rows ∧
  all ≡ₚ rows ∧
  get_trade_data db None = all ∧
  ∀ result, result = by_year ∨ result = all →
    StronglySorted order_by result ∧
    ∀ i j r1 r2,
      (i < j)%nat → result !! i = Some r1 → result !! j = Some r2 →
      sql_compare (year r1) (year r2) ≠ Lt ∧
      (sql_compare (year r1) (year r2) = Eq →
         sql_compare (trade_value r1) (trade_value r2) ≠ Lt ∧
         (trade_value r1 = SqlNull → trade_value r2 = SqlNull)).
Proof.
  intros Hn Hin rows by_year all.
  assert (Hall : all = merge_sort order_by rows).
  { unfold all, get_trade_data. rewrite build_query_Some, <- build_query_None.
    apply get_trade_data_None. }
  assert (Hby : by_year = merge_sort order_by
            (filter (λ r, sql_compare (year r) (SqlInt n) = Eq) rows))
    by (by apply get_trade_data_year).
  split_and!.
  - rewrite Hby. apply merge_sort_Permutation.
  - rewrite Hall. apply merge_sort_Permutation.
  - by rewrite get_trade_data_None.
  - intros result Hres.
    assert (Hs : StronglySorted order_by result).
    { destruct Hres as [-> | ->]; [rewrite Hby | rewrite Hall];
        apply (StronglySorted_merge_sort order_by). }
    split; [done|]. intros i j r1 r2 Hij H1 H2.
    apply order_by_nulls_last. by eapply (StronglySorted_lookup order_by).
Qed.

End Year.

(** ** The filter on the commodity code *)

Lemma like_percent s : like "%" s = true.
Proof. induction s as [|c s IH]; simpl in *; [done|]. by rewrite IH. Qed.

Lemma like_any p s : like p s = true → like (String "%" p) s = true.
Proof. destruct s; simpl; intros ->; done. Qed.

Lemma to_lower_refl c : Ascii.eqb (to_lower c) (to_lower c) = true.
Proof. apply Ascii.eqb_refl. Qed.

Lemma like_begins f : ∀ s, String.prefix f s = true → like (f ++ "%")%string s = true.
Proof.
  induction f as [|c f IH]; intros s Hp.
  - apply like_percent.
  - destruct s as [|d s]; [done|]. simpl in Hp.
    destruct (ascii_dec c d) as [<-|]; [|done].
    specialize (IH s Hp).
    change (String c f ++ "%")%string with (String c (f ++ "%"))%string.
    destruct (Ascii.eqb c "%") eqn:E.
    + apply Ascii.eqb_eq in E as ->.
      change (like (String "%" (f ++ "%")) (String "%" s)) with
        (like (f ++ "%")%string (String "%" s) || like (String "%" (f ++ "%")) s).
      rewrite (like_any _ _ IH). apply orb_true_r.
    + simpl. rewrite E. rewrite to_lower_refl, orb_true_r. done.
Qed.

Lemma plain_char_eqb c d :
  plain_char c = true →
  (Ascii.eqb c "_" || Ascii.eqb (to_lower c) (to_lower d)) = Ascii.eqb c d.
Proof.
  unfold plain_char, is_letter, to_lower. intros H.
  apply andb_prop in H as [H Hl]. apply andb_prop in H as [_ Hu].
  apply negb_true_iff in Hu, Hl. rewrite Hu. simpl.
  apply orb_false_elim in Hl as [Hup Hlo]. rewrite Hup.
  destruct (N.leb 65 (N_of_ascii d) && N.leb (N_of_ascii d) 90) eqn:Ed; [|done].
  assert (Ascii.eqb c d = false) as ->.
  { apply Ascii.eqb_neq. intros ->. congruence. }
  apply Ascii.eqb_neq. intros ->.
  rewrite N_ascii_embedding in Hlo.
  - apply andb_prop in Ed as [E1 E2]. apply N.leb_le in E1, E2.
    apply andb_false_elim in Hlo as [Hlo|Hlo]; apply N.leb_gt in Hlo; lia.
  - apply andb_prop in Ed as [E1 E2]. apply N.leb_le in E1, E2. lia.
Qed.

Lemma like_plain f : ∀ s, plain f = true → like (f ++ "%")%string s = String.prefix f s.
Proof.
  induction f as [|c f IH]; intros s Hp.
  - change (like "%" s = String.prefix "" s). rewrite like_percent. by destruct s.
  - simpl in Hp. apply andb_prop in Hp as [Hc Hf].
    change (String c f ++ "%")%string with (String c (f ++ "%"))%string.
    simpl. assert (Ascii.eqb c "%" = false) as ->.
    { unfold plain_char in Hc. apply andb_prop in Hc as [Hc _].
      apply andb_prop in Hc as [Hc _]. by apply negb_true_iff. }
    destruct s as [|d s]; [done|].
    rewrite plain_char_eqb by done. rewrite IH by done. simpl.
    destruct (ascii_dec c d) as [->|Hne].
    + by rewrite Ascii.eqb_refl.
    + by rewrite (proj2 (Ascii.eqb_neq c d)).
Qed.

Section Hs.
Context {RT : Runtime}.

Lemma conditions_hs_code f :
  f ≠ "" → conditions {[ "hs_code" := PyStr f ]} = ([AndLike HsCode], [PyStr (f ++ "%")%string]).
Proof.
  intros Hf. unfold conditions, add_filter.
  rewrite lookup_singleton_eq. rewrite !lookup_singleton_ne by done. simpl.
  by rewrite (proj2 (String.eqb_neq f "")).
Qed.

Lemma get_trade_data_hs_code db f :
  f ≠ "" →
  get_trade_data db (Some {[ "hs_code" := PyStr f ]}) =
  merge_sort order_by
    (filter (λ r, where_like (hs_code r) (SqlText (f ++ "%")%string) = true)
            (map fields (trade_data db))).
Proof.
  intros Hf. unfold get_trade_data.
  rewrite build_query_Some, conditions_hs_code by done. simpl.
  unfold read_sql_query, bind_parameters. simpl.
  f_equal. apply list_filter_iff. intros r. simpl.
  by rewrite andb_true_r.
Qed.

Lemma where_like_begins f v :
  begins_with f v = true → where_like v (SqlText (f ++ "%")%string) = true.
Proof.
  unfold begins_with, where_like. simpl.
  destruct (text_affinity v); try done. apply like_begins.
Qed.

Lemma where_like_plain f v :
  plain f = true → where_like v (SqlText (f ++ "%")%string) = begins_with f v.
Proof.
  intros Hp. unfold begins_with, where_like. simpl.
  destruct (text_affinity v); try done. by apply like_plain.
Qed.

(** C4, amended. The rows returned for a filter [f] on [hs_code] are
    the rows whose code matches the LIKE pattern [f%]; every row whose
    code begins with [f] is among them; and when [f] has no wildcard
    and no letter they are exactly the rows whose code begins with [f]. *)
Theorem hs_code_filter db f :
  f ≠ "" →
  let rows := map fields (trade_data db) in
  let result := get_trade_data db (Some {[ "hs_code" := PyStr f ]}) in
  (∀ r, r ∈ result ↔ r ∈ rows ∧ where_like (hs_code r) (SqlText (f ++ "%")%string) = true) ∧
  (∀ r, r ∈ rows → begins_with f (hs_code r) = true → r ∈ result) ∧
  (plain f = true → ∀ r, r ∈ result ↔ r ∈ rows ∧ begins_with f (hs_code r) = true).
Proof.
  intros Hf rows result.
  assert (Hin : ∀ r, r ∈ result ↔
    r ∈ rows ∧ where_like (hs_code r) (SqlText (f ++ "%")%string) = true).
  { intros r. unfold result. rewrite get_trade_data_hs_code by done.
    rewrite merge_sort_Permutation, list_elem_of_filter. tauto. }
  split_and!.
  - done.
  - intros r Hr Hb. apply Hin. split; [done|]. by apply where_like_begins.
  - intros Hp r. rewrite Hin, where_like_plain by done. done.
Qed.
End Hs.

(** ** Aggregates *)

Section Stats.
Context {RT : Runtime}.

Lemma valued_rows_without_null (P : trade_record → Prop) `{∀ r, Decision (P r)}
    pre row post :
  trade_value (fields row) = SqlNull →
  filter (λ r, P r ∧ is_null (trade_value r) = false) (map fields (pre ++ row :: post)) =
  filter (λ r, P r ∧ is_null (trade_value r) = false) (map fields (pre ++ post)).
Proof.
  intros Hn. rewrite !map_app, !filter_app. simpl map.
  rewrite filter_cons_False; [done|]. rewrite Hn. by intros [_ ?].
Qed.

Lemma valued_rows_without_null' pre row post :
  trade_value (fields row) = SqlNull →
  filter (λ r, is_null (trade_value r) = false) (map fields (pre ++ row :: post)) =
  filter (λ r, is_null (trade_value r) = false) (map fields (pre ++ post)).
Proof.
  intros Hn. rewrite !map_app, !filter_app. simpl map.
  rewrite filter_cons_False; [done|]. by rewrite Hn.
Qed.

(** A row without a trade value is a row the three aggregates do not
    see, but for the count of all rows. *)
Lemma aggregates_without_null db db' pre row post :
  trade_data db = pre ++ post →
  trade_data db' = pre ++ row :: post →
  trade_value (fields row) = SqlNull →
  total_records (get_summary_stats db') = total_records (get_summary_stats db) + 1 ∧
  total_trade_value (get_summary_stats db') = total_trade_value (get_summary_stats db) ∧
  (∀ flow limit, get_top_traders db' flow limit = get_top_traders db flow limit) ∧
  (∀ code, get_trade_trends db' code = get_trade_trends db code).
Proof.
  intros H H' Hn. split_and!.
  - unfold get_summary_stats. simpl. rewrite H, H', !length_app. simpl. lia.
  - unfold get_summary_stats. simpl. rewrite H, H'.
    by rewrite valued_rows_without_null'.
  - intros flow limit. unfold get_top_traders. rewrite H, H'.
    destruct (bind_parameters 2 [flow; limit]) as [[|c1 [|c2 [|]]]|]; try done.
    by rewrite valued_rows_without_null.
  - intros code. unfold get_trade_trends. rewrite H, H'.
    destruct (truthy code); [|by rewrite valued_rows_without_null'].
    destruct (bind_parameters 1 [code]) as [[|c1 [|]]|]; try done.
    simpl. by rewrite valued_rows_without_null.
Qed.

(** C6. On a table without rows [get_summary_stats] gives 0 records,
    the year range ["No data"] and the total 0; and a row whose trade
    value is NULL, wherever it stands, adds one to the records and
    nothing to the total. *)
Theorem summary_stats_count_and_sum db :
  (trade_data db = [] →
     total_records (get_summary_stats db) = 0 ∧
     year_range (get_summary_stats db) = "No data" ∧
     total_trade_value (get_summary_stats db) = PyInt 0) ∧
  (∀ db' pre row post,
     trade_data db = pre ++ post →
     trade_data db' = pre ++ row :: post →
     trade_value (fields row) = SqlNull →
     total_records (get_summary_stats db') = total_records (get_summary_stats db) + 1 ∧
     total_trade_value (get_summary_stats db') = total_trade_value (get_summary_stats db)).
Proof.
  split.
  - intros H. unfold get_summary_stats. rewrite H. done.
  - intros db' pre row post H H' Hn.
    destruct (aggregates_without_null db db' pre row post) as (? & ? & _); done.
Qed.

End Stats.

(** ** The mapping of a response *)

Section Extraction.
Context {RT : Runtime}.

Lemma data_record_dict reporter year hs_code d :
  data_record reporter year hs_code (PyDict d) =
  tradeValue ← numeric_field (PyDict d) "tradeValue";
  qty ← numeric_field (PyDict d) "qty";
  Ok [default year (assoc "period" d); PyNone;
      default reporter (assoc "reporterCode" d);
      default (PyStr "") (assoc "reporterDesc" d);
      default (PyStr "") (assoc "partnerCode" d);
      default (PyStr "") (assoc "partnerDesc" d);
      default (PyStr "Import") (assoc "flowDesc" d);
      default hs_code (assoc "cmdCode" d);
      default (PyStr "") (assoc "cmdDesc" d);
      tradeValue; qty;
      default (PyStr "") (assoc "qtyUnitAbbr" d)].
Proof. reflexivity. Qed.

Lemma numeric_field_falsy d key :
  truthy (default PyNone (assoc key d)) = false →
  numeric_field (PyDict d) key = Ok PyNone.
Proof. intros H. unfold numeric_field. simpl. by rewrite H. Qed.

Lemma numeric_field_truthy d key :
  truthy (default PyNone (assoc key d)) = true →
  numeric_field (PyDict d) key =
  q ← float (default (PyInt 0) (assoc key d)); Ok (PyFloat q).
Proof. intros H. unfold numeric_field. simpl. by rewrite H. Qed.

(** A trade value that is a text and no number: the tuple raises
    [ValueError]. *)
Lemma non_numeric_trade_value reporter year hs_code d s :
  assoc "tradeValue" d = Some (PyStr s) → s ≠ "" → float_of_str s = None →
  data_record reporter year hs_code (PyDict d) = Raise ValueError.
Proof.
  intros Hd Hs Hf. rewrite data_record_dict, (numeric_field_truthy d "tradeValue").
  - rewrite Hd. simpl. by rewrite Hf.
  - rewrite Hd. simpl. by rewrite (proj2 (String.eqb_neq s "")).
Qed.

Lemma map_records_passed_over reporter year hs_code l1 : ∀ bad l2 acc,
  passed_over reporter year hs_code bad →
  map_records reporter year hs_code (l1 ++ bad :: l2) acc =
  map_records reporter year hs_code (l1 ++ l2) acc.
Proof.
  induction l1 as [|r l1 IH]; intros bad l2 acc Hbad; simpl.
  - by destruct Hbad as [-> | ->].
  - destruct (data_record reporter year hs_code r) as [t|[]]; by rewrite ?IH.
Qed.

Lemma map_records_all_mapped reporter year hs_code l : ∀ ts acc,
  Forall2 (λ record t, data_record reporter year hs_code record = Ok t) l ts →
  map_records reporter year hs_code l acc = Ok (acc ++ ts).
Proof.
  induction l as [|r l IH]; intros ts acc H.
  - apply Forall2_nil_inv_l in H as ->. simpl. by rewrite app_nil_r.
  - apply Forall2_cons_inv_l in H as (t & ts' & Ht & H & ->).
    simpl. rewrite Ht. rewrite (IH ts'), <- app_assoc by done. done.
Qed.

Lemma store_response_passed_over db reporter year hs_code rest l1 bad l2 :
  passed_over reporter year hs_code bad →
  store_response db reporter year hs_code
    (PyDict (("data", PyList (l1 ++ bad :: l2)) :: rest)) =
  store_response db reporter year hs_code
    (PyDict (("data", PyList (l1 ++ l2)) :: rest)).
Proof.
  intros Hbad. unfold store_response. simpl.
  by rewrite map_records_passed_over.
Qed.

Lemma store_response_all_mapped db reporter year hs_code rest l ts db' :
  Forall2 (λ record t, data_record reporter year hs_code record = Ok t) l ts →
  insert_trade_data db ts = (db', Ok ()) →
  store_response db reporter year hs_code (PyDict (("data", PyList l) :: rest)) =
  (db', Ok (Z.of_nat (length ts))).
Proof.
  intros Hl Hins. unfold store_response. simpl.
  rewrite (map_records_all_mapped _ _ _ _ ts) by done. simpl.
  destruct ts as [|t ts].
  - by injection Hins as <-.
  - by rewrite Hins.
Qed.

Lemma make_request_db self now http :
  db_manager (make_request self now http).1.1 = db_manager self.
Proof.
  unfold make_request, check_rate_limit.
  destruct (Z.geb _ _), http as [|f st [j|]]; simpl; try done;
    by destruct (Z.eqb st 200).
Qed.

Lemma make_request_200 self now finished v :
  (make_request self now (Response finished 200 (Some v))).2 = v.
Proof. unfold make_request. by destruct (check_rate_limit self now). Qed.

Lemma make_request_state self now finished v v' :
  (make_request self now (Response finished 200 (Some v))).1 =
  (make_request self now (Response finished 200 (Some v'))).1.
Proof. unfold make_request. by destruct (check_rate_limit self now). Qed.

Lemma extract_unfold self now http reporter partner year hs_code :
  extract_trade_data_free_api self now http reporter partner year hs_code =
  let m := make_request self now http in
  let s := store_response (db_manager m.1.1) reporter year hs_code m.2 in
  ({| api_key := api_key m.1.1; db_manager := s.1;
      max_requests_per_hour := max_requests_per_hour m.1.1;
      requests_made := requests_made m.1.1 |},
   match s.2 with Ok n => n | Raise _ => 0 end).
Proof.
  unfold extract_trade_data_free_api.
  destruct (make_request self now http) as [[self' slept] response]. simpl.
  by destruct (store_response _ _ _ _ _).
Qed.

(** C7, amended. A record whose tuple raises [ValueError] or
    [TypeError], as a trade value that is a text and no number does, is
    passed over: whatever the other records are, the call does what it
    does on the response without that record; and when the other
    records all give a tuple and the insert of these tuples succeeds,
    they are all stored and their number is returned. *)
Theorem malformed_record_is_passed_over
    self now finished reporter partner year hs_code rest l1 bad l2 :
  passed_over reporter year hs_code bad →
  let response records :=
    Response finished 200 (Some (PyDict (("data", PyList records) :: rest))) in
  let out :=
    extract_trade_data_free_api self now (response (l1 ++ bad :: l2))
      reporter partner year hs_code in
  out = extract_trade_data_free_api self now (response (l1 ++ l2))
          reporter partner year hs_code ∧
  ∀ ts db',
    Forall2 (λ record t, data_record reporter year hs_code record = Ok t) (l1 ++ l2) ts →
    insert_trade_data (db_manager self) ts = (db', Ok ()) →
    db_manager out.1 = db' ∧ out.2 = Z.of_nat (length ts).
Proof.
  intros Hbad response out.
  assert (Heq : out = extract_trade_data_free_api self now (response (l1 ++ l2))
          reporter partner year hs_code).
  { unfold out, response. rewrite !extract_unfold. cbv zeta.
    rewrite !make_request_200.
    rewrite (make_request_state _ _ _ _ (PyDict (("data", PyList (l1 ++ l2)) :: rest))).
    by rewrite store_response_passed_over. }
  split; [done|]. intros ts db' Hall Hins.
  rewrite Heq. unfold response. rewrite extract_unfold. cbv zeta.
  rewrite make_request_200, make_request_db.
  rewrite (store_response_all_mapped _ _ _ _ _ _ ts db') by done. done.
Qed.

Lemma mapM_adapt_lookup l : ∀ cells i v,
  mapM adapt l = Ok cells → l !! i = Some v →
  ∃ c, cells !! i = Some c ∧ adapt v = Ok c.
Proof.
  induction l as [|p l IH]; intros cells i v H Hi; [by rewrite lookup_nil in Hi|].
  simpl in H. apply bind_Ok in H as (c & Hc & H).
  apply bind_Ok in H as (cs & Hcs & [= <-]).
  destruct i as [|i]; simpl in Hi.
  - injection Hi as <-. by exists c.
  - by apply (IH cs i v).
Qed.

Lemma trade_record_of_lookup t record i v :
  trade_record_of t = Ok record → t !! i = Some v →
  ∃ c, adapt v = Ok c ∧
    (i = 9%nat → trade_value record = coerce REAL c) ∧
    (i = 10%nat → quantity record = coerce REAL c).
Proof.
  unfold trade_record_of, bind_parameters. intros H Hi.
  apply bind_Ok in H as (cells & Hcells & H).
  destruct (Nat.eqb (length t) 12); [|done].
  destruct (mapM_adapt_lookup _ _ _ _ Hcells Hi) as (c & Hc & Hv).
  exists c. split; [done|].
  do 13 (destruct cells as [|? cells]; try done).
  injection H as <-. simpl.
  split; intros ->; simpl in Hc; congruence.
Qed.

(** C9. A record whose [tradeValue] is false in a test (0, 0.0, the
    empty text, null, or not there) gives a tuple whose trade value is
    [None], and the row stored for it has a NULL trade value: it adds
    one to the records and nothing to any of the three sums. The same
    holds of [qty] and the quantity. *)
Theorem falsy_value_is_stored_as_null db reporter year hs_code d t db' :
  data_record reporter year hs_code (PyDict d) = Ok t →
  insert_trade_data db [t] = (db', Ok ()) →
  ∃ row,
    trade_data db' = trade_data db ++ [row] ∧
    (truthy (default PyNone (assoc "tradeValue" d)) = false →
       t !! 9%nat = Some PyNone ∧
       trade_value (fields row) = SqlNull ∧
       total_records (get_summary_stats db') =
         total_records (get_summary_stats db) + 1 ∧
       total_trade_value (get_summary_stats db') =
         total_trade_value (get_summary_stats db) ∧
       (∀ flow limit, get_top_traders db' flow limit = get_top_traders db flow limit) ∧
       (∀ code, get_trade_trends db' code = get_trade_trends db code)) ∧
    (truthy (default PyNone (assoc "qty" d)) = false →
       t !! 10%nat = Some PyNone ∧
       quantity (fields row) = SqlNull).
Proof.
  intros Ht Hins.
  apply insert_trade_data_Ok, executemany_insert_Ok in Hins
    as (rows & Hd & Hall & _).
  apply Forall2_cons_inv_l in Hall as (row & rows' & Hrow & Hnil & ->).
  apply Forall2_nil_inv_l in Hnil as ->.
  exists row. split; [done|]. rewrite data_record_dict in Ht.
  apply bind_Ok in Ht as (tv & Htv & Ht). apply bind_Ok in Ht as (q & Hq & [= <-]).
  split.
  - intros Hf. rewrite numeric_field_falsy in Htv by done. injection Htv as <-.
    destruct (trade_record_of_lookup _ _ 9%nat PyNone Hrow eq_refl) as (c & [= <-] & Hv & _).
    specialize (Hv eq_refl). simpl in Hv.
    split; [done|]. split; [done|].
    apply (aggregates_without_null db db' (trade_data db) row []); [by rewrite app_nil_r|done..].
  - intros Hf. rewrite numeric_field_falsy in Hq by done. injection Hq as <-.
    destruct (trade_record_of_lookup _ _ 10%nat PyNone Hrow eq_refl) as (c & [= <-] & _ & Hv).
    specialize (Hv eq_refl). by simpl in Hv.
Qed.

End Extraction.

(** ** The statements on examples *)

Section Examples.
#[local] Existing Instance decimal_runtime.

(** The batch of C8 that fails in the middle: the second tuple has a
    list where a year is expected; the first is not kept. *)
Example insert_trade_data_fails_in_the_middle :
  let good := sample_tuple 2022 "84" (PyFloat 5) in
  let bad := sample_tuple 2022 "85" (PyList []) in
  insert_trade_data empty [good; bad; good] = (empty, Raise ProgrammingError) ∧
  (insert_trade_data empty [good; good]).2 = Ok ().
Proof. vm_compute. split; reflexivity. Qed.

Lemma insert_trade_data_no_dedup_twice :
  let t := sample_tuple 2022 "84" (PyFloat 5) in
  let db1 := (insert_trade_data empty [t]).1 in
  let db2 := (insert_trade_data db1 [t]).1 in
  length (trade_data db2) = (length (trade_data db1) + length [t])%nat ∧
  ∃ i j r1 r2,
    trade_data db2 !! i = Some r1 ∧ trade_data db2 !! j = Some r2 ∧
    i ≠ j ∧ rowid r1 ≠ rowid r2 ∧
    trade_record_of t = Ok (fields r1) ∧ fields r1 = fields r2.
Proof.
  intros t db1 db2.
  apply (insert_trade_data_no_dedup empty [t] [t] db1 db2 t).
  - apply list_elem_of_singleton. reflexivity.
  - apply list_elem_of_singleton. reflexivity.
  - vm_compute. reflexivity.
  - vm_compute. reflexivity.
Defined.

(** C4, as stated, fails: the filter ["8_"] returns the row of code
    ["84"], which does not begin with ["8_"]; and the filter ["total"]
    returns the row of code ["TOTAL"]. *)
Lemma hs_code_filter_is_a_pattern :
  get_trade_data (table [sample 2022 "84" (SqlReal 5)])
    (Some {[ "hs_code" := PyStr "8_" ]}) = [sample 2022 "84" (SqlReal 5)] ∧
  String.prefix "8_" "84" = false ∧
  get_trade_data (table [sample 2022 "TOTAL" (SqlReal 5)])
    (Some {[ "hs_code" := PyStr "total" ]}) = [sample 2022 "TOTAL" (SqlReal 5)] ∧
  String.prefix "total" "TOTAL" = false.
Proof. vm_compute. repeat split; reflexivity. Qed.

Lemma hs_code_filter_84 :
  let db := table [sample 2022 "8471" (SqlReal 5); sample 2022 "84" SqlNull;
                   sample 2022 "185" (SqlReal 7)] in
  ("84" ≠ "" ∧ plain "84" = true) ∧
  ∀ r, r ∈ get_trade_data db (Some {[ "hs_code" := PyStr "84" ]}) ↔
       r ∈ map fields (trade_data db) ∧ begins_with "84" (hs_code r) = true.
Proof.
  intros db.
  assert (H : "84" ≠ "") by discriminate.
  split; [split; [exact H | reflexivity]|].
  exact (proj2 (proj2 (hs_code_filter db "84" H)) eq_refl).
Defined.

(** The three codes of the specification. *)
Example hs_code_filter_84_rows :
  get_trade_data
    (table [sample 2022 "8471" (SqlReal 5); sample 2022 "84" SqlNull;
            sample 2022 "185" (SqlReal 7)])
    (Some {[ "hs_code" := PyStr "84" ]}) =
  [sample 2022 "8471" (SqlReal 5); sample 2022 "84" SqlNull].
Proof. vm_compute. reflexivity. Qed.

Lemma get_trade_data_by_year_2022 :
  let db := table [sample 2021 "84" (SqlReal 9); sample 2022 "84" SqlNull;
                   sample 2022 "85" (SqlReal 5); sample 2023 "84" (SqlReal 1)] in
  (2022 ≠ 0 ∧ in_int64 2022 = true) ∧
  get_trade_data db (Some {[ "year" := PyInt 2022 ]}) ≡ₚ
    [sample 2022 "84" SqlNull; sample 2022 "85" (SqlReal 5)].
Proof.
  intros db.
  assert (H : 2022 ≠ 0) by discriminate.
  split; [split; [exact H | reflexivity]|].
  exact (proj1 (get_trade_data_by_year db 2022 H eq_refl)).
Defined.

(** The order of the result: the years go down, and in a year the
    values go down, the NULL last. *)
Example get_trade_data_order :
  let db := table [sample 2021 "84" (SqlReal 9); sample 2022 "84" SqlNull;
                   sample 2022 "85" (SqlReal 5); sample 2023 "84" (SqlReal 1);
                   sample 2022 "87" (SqlReal 7)] in
  get_trade_data db (Some {[ "year" := PyInt 2022 ]}) =
    [sample 2022 "87" (SqlReal 7); sample 2022 "85" (SqlReal 5);
     sample 2022 "84" SqlNull] ∧
  get_trade_data db (Some ∅) =
    [sample 2023 "84" (SqlReal 1); sample 2022 "87" (SqlReal 7);
     sample 2022 "85" (SqlReal 5); sample 2022 "84" SqlNull;
     sample 2021 "84" (SqlReal 9)].
Proof. vm_compute. split; reflexivity. Qed.

Lemma summary_stats_of_two_tables :
  let db := table [sample 2022 "84" (SqlReal 5)] in
  let db' := table [sample 2022 "84" (SqlReal 5); sample 2022 "85" SqlNull] in
  (total_records (get_summary_stats empty) = 0 ∧
   year_range (get_summary_stats empty) = "No data" ∧
   total_trade_value (get_summary_stats empty) = PyInt 0) ∧
  (total_records (get_summary_stats db') = total_records (get_summary_stats db) + 1 ∧
   total_trade_value (get_summary_stats db') = total_trade_value (get_summary_stats db)).
Proof.
  intros db db'. split.
  - exact (proj1 (summary_stats_count_and_sum empty) eq_refl).
  - exact (proj2 (summary_stats_count_and_sum db) db'
             [{| rowid := 1; fields := sample 2022 "84" (SqlReal 5) |}]
             {| rowid := 2; fields := sample 2022 "85" SqlNull |} []
             eq_refl eq_refl eq_refl).
Defined.

Example summary_stats_values :
  get_summary_stats (table [sample 2022 "84" (SqlReal 5); sample 2020 "85" SqlNull]) =
  {| total_records := 2; year_range := "2020-2022"; unique_reporters := 1;
     unique_partners := 1; total_trade_value := PyFloat 5 |}.
Proof. vm_compute. reflexivity. Qed.

(** C7, as stated, fails: an element of the response that is no
    object, or a trade value too large for a float, ends the call, which
    returns 0 and stores nothing, the record after it included, which
    alone is stored. *)
Lemma malformed_record_ends_the_call :
  let good := PyDict [("period", PyInt 2022); ("tradeValue", PyInt 5)] in
  let huge := PyDict [("period", PyInt 2022); ("tradeValue", PyInt (10 ^ 400))] in
  let self := init "" "" empty in
  let response records :=
    Response 1 200 (Some (PyDict [("data", PyList records)])) in
  let call records :=
    extract_trade_data_free_api self 0 (response records)
      (PyStr "USA") (PyStr "all") (PyInt 2022) (PyStr "TOTAL") in
  ((call [PyStr "garbage"; good]).2 = 0 ∧
   trade_data (db_manager (call [PyStr "garbage"; good]).1) = []) ∧
  ((call [huge; good]).2 = 0 ∧
   trade_data (db_manager (call [huge; good]).1) = []) ∧
  ((call [good]).2 = 1 ∧
   length (trade_data (db_manager (call [good]).1)) = 1%nat).
Proof. vm_compute. repeat split; reflexivity. Qed.

Lemma malformed_record_between_two :
  let good1 := PyDict [("period", PyInt 2022); ("tradeValue", PyInt 5)] in
  let bad := PyDict [("period", PyInt 2022); ("tradeValue", PyStr "n/a")] in
  let good2 := PyDict [("period", PyInt 2023); ("tradeValue", PyStr "7")] in
  let self := init "" "" empty in
  let response records :=
    Response 1 200 (Some (PyDict [("data", PyList records)])) in
  let out :=
    extract_trade_data_free_api self 0 (response [good1; bad; good2])
      (PyStr "USA") (PyStr "all") (PyInt 2022) (PyStr "TOTAL") in
  passed_over (PyStr "USA") (PyInt 2022) (PyStr "TOTAL") bad ∧
  out = extract_trade_data_free_api self 0 (response [good1; good2])
          (PyStr "USA") (PyStr "all") (PyInt 2022) (PyStr "TOTAL") ∧
  length (trade_data (db_manager out.1)) = 2%nat ∧
  out.2 = 2.
Proof.
  intros good1 bad good2 self response out.
  assert (Hbad : passed_over (PyStr "USA") (PyInt 2022) (PyStr "TOTAL") bad)
    by (left; reflexivity).
  split; [exact Hbad|].
  pose (ts := [[PyInt 2022; PyNone; PyStr "USA"; PyStr ""; PyStr ""; PyStr "";
                PyStr "Import"; PyStr "TOTAL"; PyStr ""; PyFloat (inject_Z 5);
                PyNone; PyStr ""];
               [PyInt 2023; PyNone; PyStr "USA"; PyStr ""; PyStr ""; PyStr "";
                PyStr "Import"; PyStr "TOTAL"; PyStr ""; PyFloat (inject_Z 7);
                PyNone; PyStr ""]]).
  destruct (malformed_record_is_passed_over self 0 1 (PyStr "USA") (PyStr "all")
              (PyInt 2022) (PyStr "TOTAL") [] [good1] bad [good2] Hbad)
    as (H1 & H).
  split; [exact H1|].
  destruct (H ts (insert_trade_data (db_manager self) ts).1) as (H2 & H3).
  - repeat constructor.
  - vm_compute. reflexivity.
  - split; [|exact H3].
    exact (eq_trans (f_equal (λ x, length (trade_data x)) H2) eq_refl).
Defined.

(** Records that are passed over, by [ValueError] and by [TypeError],
    and one that is not: the call does what it does on that one alone;
    and a response of such records only stores nothing and returns 0. *)
Example malformed_records_among_one :
  let bad1 := PyDict [("period", PyInt 2022); ("tradeValue", PyStr "n/a")] in
  let bad2 := PyDict [("period", PyInt 2022); ("tradeValue", PyList [PyInt 1])] in
  let bad3 := PyDict [("period", PyInt 2022); ("qty", PyStr "many")] in
  let good := PyDict [("period", PyInt 2023); ("tradeValue", PyStr "7")] in
  let self := init "" "" empty in
  let call records :=
    extract_trade_data_free_api self 0
      (Response 1 200 (Some (PyDict [("data", PyList records)])))
      (PyStr "USA") (PyStr "all") (PyInt 2022) (PyStr "TOTAL") in
  call [bad1; bad2; good; bad3] = call [good] ∧
  (call [bad1; bad2; good; bad3]).2 = 1 ∧
  (call [bad1; bad2; bad3]).2 = 0 ∧
  trade_data (db_manager (call [bad1; bad2; bad3]).1) = [].
Proof. vm_compute. repeat split; reflexivity. Qed.

Lemma zero_trade_value_is_stored_as_null :
  let d := [("period", PyInt 2022); ("tradeValue", PyInt 0); ("qty", PyStr "")] in
  let t := [PyInt 2022; PyNone; PyStr "USA"; PyStr ""; PyStr ""; PyStr "";
            PyStr "Import"; PyStr "TOTAL"; PyStr ""; PyNone; PyNone; PyStr ""] in
  let db := table [sample 2022 "84" (SqlReal 5)] in
  let db' := (insert_trade_data db [t]).1 in
  data_record (PyStr "USA") (PyInt 2022) (PyStr "TOTAL") (PyDict d) = Ok t ∧
  ∃ row,
    trade_data db' = trade_data db ++ [row] ∧
    trade_value (fields row) = SqlNull ∧ quantity (fields row) = SqlNull ∧
    total_trade_value (get_summary_stats db') = total_trade_value (get_summary_stats db).
Proof.
  intros d t db db'. split; [reflexivity|].
  destruct (falsy_value_is_stored_as_null db (PyStr "USA") (PyInt 2022) (PyStr "TOTAL")
              d t db' eq_refl eq_refl) as (row & Hrow & Hv & Hq).
  exists row. split; [exact Hrow|].
  destruct (Hv eq_refl) as (_ & Hnull & _ & Hsum & _).
  destruct (Hq eq_refl) as (_ & Hqnull).
  split; [exact Hnull|]. split; [exact Hqnull | exact Hsum].
Defined.

Lemma year_zero_is_no_filter :
  let db := table [sample 2021 "84" (SqlReal 9); sample 2022 "85" (SqlReal 5)] in
  truthy (PyInt 0) = false ∧
  get_trade_data db (Some (<[ "year" := PyInt 0 ]> {[ "hs_code" := PyStr "84" ]})) =
    get_trade_data db (Some (delete "year" {[ "hs_code" := PyStr "84" ]})) ∧
  get_trade_data db (Some {[ "year" := PyInt 0 ]}) = get_trade_data db None ∧
  get_trade_data db (Some {[ "year" := PyInt 0 ]}) ≡ₚ map fields (trade_data db).
Proof.
  intros db. split; [reflexivity|].
  exact (falsy_filter_is_no_filter db {[ "hs_code" := PyStr "84" ]} "year" (PyInt 0) eq_refl).
Defined.

(** The other false values of C10. *)
Example false_values_are_no_filter :
  let db := table [sample 2021 "84" (SqlReal 9); sample 2022 "85" (SqlReal 5)] in
  let all := [sample 2022 "85" (SqlReal 5); sample 2021 "84" (SqlReal 9)] in
  get_trade_data db (Some {[ "hs_code" := PyStr "" ]}) = all ∧
  get_trade_data db (Some {[ "year" := PyNone ]}) = all ∧
  get_trade_data db (Some {[ "trade_flow" := PyBool false ]}) = all ∧
  get_trade_data db (Some {[ "year" := PyInt 0 ]}) = all ∧
  get_trade_data db None = all.
Proof. vm_compute. repeat split; reflexivity. Qed.

End Examples.

(** * Further properties *)

(** ** Requests *)

Section Requests.
Context {RT : Runtime}.

(** X1. Under a ceiling of at least 1, after [make_request] the window
    holds no more requests than the ceiling, whatever it held before
    and whatever the request met. *)
Theorem make_request_keeps_window_within_ceiling self now http :
  1 ≤ max_requests_per_hour self →
  Z.of_nat (length (requests_made (make_request self now http).1.1))
    ≤ max_requests_per_hour self.
Proof.
  intros Hmax. unfold make_request, check_rate_limit.
  set (kept := filter (λ t, seconds (now - t) < 3600) (requests_made self)).
  destruct (Z.geb_spec (Z.of_nat (length kept)) (max_requests_per_hour self)) as [Hge|Hlt].
  - destruct http as [|f st [j|]]; simpl; [lia|..];
      destruct (Z.eqb st 200); simpl; lia.
  - destruct http as [|f st [j|]]; simpl; [lia|..];
      destruct (Z.eqb st 200); simpl; rewrite length_app; simpl; lia.
Qed.

(** X2. A request that raises, that meets a status other than 200, or
    whose body is no JSON, gives 0 records and leaves the database as
    it was; the request is counted in the window when a response came,
    and not when the request raised. *)
Theorem failed_request_extracts_nothing self now http reporter partner year hs_code :
  (http = RequestException ∨
   (∃ finished status json, http = Response finished status json ∧ status ≠ 200) ∨
   (∃ finished status, http = Response finished status None)) →
  let out := extract_trade_data_free_api self now http reporter partner year hs_code in
  out.2 = 0 ∧ db_manager out.1 = db_manager self ∧
  requests_made out.1 =
    requests_made (check_rate_limit self now).1 ++
    match http with RequestException => [] | Response finished _ _ => [finished] end.
Proof.
  intros H out. unfold out. rewrite extract_unfold. cbv zeta.
  assert (Hm : (make_request self now http).2 = PyNone ∧
    requests_made (make_request self now http).1.1 =
      requests_made (check_rate_limit self now).1 ++
      match http with RequestException => [] | Response finished _ _ => [finished] end).
  { unfold make_request. destruct (check_rate_limit self now) as [self' slept].
    destruct H as [-> | [(f & st & j & -> & Hst) | (f & st & ->)]]; simpl.
    - by rewrite app_nil_r.
    - rewrite (proj2 (Z.eqb_neq st 200)) by done. done.
    - by destruct (Z.eqb st 200). }
  destruct Hm as [Hr Hq]. rewrite Hr. simpl. rewrite make_request_db. done.
Qed.

Lemma insert_trade_data_Raise db l db' e :
  insert_trade_data db l = (db', Raise e) → db' = db.
Proof.
  unfold insert_trade_data, transaction.
  destruct (executemany insert_trade_row db l); [done|]. by intros [= <-].
Qed.

Lemma store_response_rows db reporter year hs_code response :
  ∃ rows,
    trade_data (store_response db reporter year hs_code response).1 =
      trade_data db ++ rows ∧
    countries (store_response db reporter year hs_code response).1 = countries db ∧
    hs_codes (store_response db reporter year hs_code response).1 = hs_codes db ∧
    match (store_response db reporter year hs_code response).2 with
    | Ok n => n = Z.of_nat (length rows)
    | Raise _ => rows = []
    end.
Proof.
  unfold store_response.
  match goal with |- context [match ?p with Ok _ => _ | Raise _ => _ end] =>
    destruct p as [[[|t ts]|]|e] end;
    try (exists []; rewrite app_nil_r; done).
  destruct (insert_trade_data db (t :: ts)) as [db' [[]|e]] eqn:E.
  - apply insert_trade_data_Ok, executemany_insert_Ok in E
      as (rows & Hd & Hall & _ & _ & Hc & Hh).
    pose proof (Forall2_length _ _ _ Hall) as Hl.
    exists rows. simpl in *. split_and!; try done. by rewrite Hl.
  - apply insert_trade_data_Raise in E as ->.
    exists []. rewrite app_nil_r. done.
Qed.

Lemma extract_rows_added self now http reporter partner year hs_code :
  let out := extract_trade_data_free_api self now http reporter partner year hs_code in
  ∃ rows,
    trade_data (db_manager out.1) = trade_data (db_manager self) ++ rows ∧
    out.2 = Z.of_nat (length rows) ∧
    countries (db_manager out.1) = countries (db_manager self) ∧
    hs_codes (db_manager out.1) = hs_codes (db_manager self).
Proof.
  intros out. unfold out. rewrite extract_unfold. cbv zeta.
  pose proof (store_response_rows (db_manager (make_request self now http).1.1)
                reporter year hs_code (make_request self now http).2) as Hs.
  destruct (store_response _ _ _ _ _) as [db' r].
  destruct Hs as (rows & Hd & Hc & Hh & Hn).
  rewrite make_request_db in Hd, Hc, Hh. simpl in *.
  exists rows. split_and!; try done.
  destruct r; [done | by rewrite Hn].
Qed.

(** X3. Whatever the request meets, the number
    [extract_trade_data_free_api] returns is the number of rows it has
    added at the end of [trade_data]; the rows that were there and the
    two reference tables are as before. *)
Theorem extract_returns_rows_added self now http reporter partner year hs_code :
  let out := extract_trade_data_free_api self now http reporter partner year hs_code in
  ∃ rows,
    trade_data (db_manager out.1) = trade_data (db_manager self) ++ rows ∧
    out.2 = Z.of_nat (length rows) ∧
    countries (db_manager out.1) = countries (db_manager self) ∧
    hs_codes (db_manager out.1) = hs_codes (db_manager self).
Proof. apply extract_rows_added. Qed.

(** X4. A tuple of the mapping has twelve values, [None] for the
    month, and [None] or a float for the trade value and for the
    quantity: what [insert_trade_data] binds to its twelve parameters. *)
Theorem data_record_shape reporter year hs_code record t :
  data_record reporter year hs_code record = Ok t →
  length t = 12%nat ∧
  t !! 1%nat = Some PyNone ∧
  (∀ i, i = 9%nat ∨ i = 10%nat → t !! i = Some PyNone ∨ ∃ q, t !! i = Some (PyFloat q)).
Proof.
  intros H. destruct record; try done.
  rewrite data_record_dict in H.
  apply bind_Ok in H as (tv & Htv & H). apply bind_Ok in H as (q & Hq & [= <-]).
  assert (Hnum : ∀ key v, numeric_field (PyDict d) key = Ok v →
            v = PyNone ∨ ∃ q, v = PyFloat q).
  { intros key v. unfold numeric_field. simpl.
    destruct (truthy _); [|intros [= <-]; by left].
    intros Hv. apply bind_Ok in Hv as (x & _ & [= <-]). right. by exists x. }
  split_and!; try done.
  intros i [-> | ->]; simpl.
  - destruct (Hnum _ _ Htv) as [-> | (x & ->)]; [by left | right; by exists x].
  - destruct (Hnum _ _ Hq) as [-> | (x & ->)]; [by left | right; by exists x].
Qed.

Lemma extract_each_rows_added world calls : ∀ i self total,
  ∃ rows,
    trade_data (db_manager (extract_each world i calls self total).1) =
      trade_data (db_manager self) ++ rows ∧
    (extract_each world i calls self total).2 = total + Z.of_nat (length rows) ∧
    countries (db_manager (extract_each world i calls self total).1) =
      countries (db_manager self) ∧
    hs_codes (db_manager (extract_each world i calls self total).1) =
      hs_codes (db_manager self).
Proof.
  induction calls as [|[reporter y] calls IH]; intros i self total; simpl.
  - exists []. rewrite app_nil_r. split_and!; try done. simpl. lia.
  - pose proof (extract_rows_added self (world i).1 (world i).2
                  (PyStr reporter) (PyStr "all") (PyInt y) (PyStr "TOTAL")) as H.
    destruct (extract_trade_data_free_api _ _ _ _ _ _ _) as [self' records].
    destruct H as (rows1 & Hd1 & Hn1 & Hc1 & Hh1). simpl in *.
    destruct (IH (S i) self' (total + records)) as (rows2 & Hd2 & Hn2 & Hc2 & Hh2).
    exists (rows1 ++ rows2). rewrite Hd2, Hd1, Hn2, Hc2, Hh2, Hn1, length_app, <- app_assoc.
    split_and!; try done. lia.
Qed.

Lemma extract_request_exception self now reporter partner year hs_code :
  (extract_trade_data_free_api self now RequestException reporter partner year hs_code).2 = 0 ∧
  db_manager (extract_trade_data_free_api self now RequestException
                reporter partner year hs_code).1 = db_manager self.
Proof.
  rewrite extract_unfold. cbv zeta.
  assert ((make_request self now RequestException).2 = PyNone) as Hr.
  { unfold make_request. by destruct (check_rate_limit self now). }
  rewrite Hr. simpl. by rewrite make_request_db.
Qed.

Lemma extract_each_all_fail world calls : ∀ i self total,
  (∀ k, (i ≤ k < i + length calls)%nat → (world k).2 = RequestException) →
  (extract_each world i calls self total).2 = total ∧
  db_manager (extract_each world i calls self total).1 = db_manager self.
Proof.
  induction calls as [|[reporter y] calls IH]; intros i self total Hw; simpl; [done|].
  pose proof (extract_request_exception self (world i).1
                (PyStr reporter) (PyStr "all") (PyInt y) (PyStr "TOTAL")) as H.
  rewrite (Hw i) by (simpl; lia).
  destruct (extract_trade_data_free_api _ _ _ _ _ _ _) as [self' records].
  destruct H as [Hn Hd]. simpl in *. subst records.
  destruct (IH (S i) self' (total + 0)) as [Hn' Hd'].
  { intros k Hk. apply Hw. simpl. lia. }
  rewrite Hn', Hd', Hd. split; [lia|done].
Qed.

(** X18. [update_recent_data] returns the number of rows its ten
    requests have added at the end of [trade_data], and touches nothing
    else of the database; when the ten requests all raise it returns 0
    and the database is as before. *)
Theorem update_recent_data_returns_rows_added self current_year world :
  let out := update_recent_data self current_year world in
  (∃ rows,
     trade_data (db_manager out.1) = trade_data (db_manager self) ++ rows ∧
     out.2 = Z.of_nat (length rows) ∧
     countries (db_manager out.1) = countries (db_manager self) ∧
     hs_codes (db_manager out.1) = hs_codes (db_manager self)) ∧
  ((∀ k, (k < 10)%nat → (world k).2 = RequestException) →
   out.2 = 0 ∧ db_manager out.1 = db_manager self).
Proof.
  intros out. unfold out, update_recent_data. split.
  - destruct (extract_each_rows_added world
       (y ← [current_year - 1; current_year - 2];
        reporter ← take 5 DEFAULT_COUNTRIES; [(reporter, y)]) 0%nat self 0)
      as (rows & ? & ? & ? & ?).
    exists rows. split_and!; done.
  - intros Hw. apply extract_each_all_fail. intros k Hk. apply Hw. simpl in Hk. lia.
Qed.

End Requests.

(** ** Batches and what is read back *)

Section Batches.
Context {RT : Runtime}.

Lemma trade_record_of_arity t :
  length t ≠ 12%nat → trade_record_of t = Raise ProgrammingError.
Proof.
  intros H. unfold trade_record_of, bind_parameters.
  by rewrite (proj2 (Nat.eqb_neq _ _) H).
Qed.

Lemma executemany_insert_succeeds l : ∀ db,
  Forall (λ t, ∃ record, trade_record_of t = Ok record) l →
  next_rowid db + Z.of_nat (length l) ≤ 2 ^ 63 →
  ∃ db', executemany insert_trade_row db l = Ok db'.
Proof.
  induction l as [|t l IH]; intros db Hall Hroom; simpl; [by eexists|].
  apply Forall_cons in Hall as [(record & Hrec) Hall].
  destruct (insert_trade_row db t) as [db1|e1] eqn:E1; simpl.
  - apply insert_trade_row_Ok in E1 as (? & _ & _ & Hnext & _).
    apply IH; [done | simpl length in Hroom; lia].
  - exfalso. unfold insert_trade_row in E1. rewrite Hrec in E1. simpl in E1.
    assert (in_int64 (next_rowid db) = true) as Hin; [|by rewrite Hin in E1].
    unfold in_int64, next_rowid in *.
    pose proof (fold_max_nonneg (map rowid (trade_data db))).
    simpl length in Hroom.
    apply andb_true_intro; split; apply Z.leb_le; lia.
Qed.

(** X5. While the rowids last, a batch whose tuples can all be bound
    is inserted, and a batch with a tuple that cannot be bound raises
    the exception of the first such tuple and leaves the database as it
    was. *)
Theorem insert_trade_data_outcome db data_list :
  next_rowid db + Z.of_nat (length data_list) ≤ 2 ^ 63 →
  (Forall (λ t, ∃ record, trade_record_of t = Ok record) data_list →
   (insert_trade_data db data_list).2 = Ok ()) ∧
  (∀ l1 bad l2 e,
     data_list = l1 ++ bad :: l2 →
     Forall (λ t, ∃ record, trade_record_of t = Ok record) l1 →
     trade_record_of bad = Raise e →
     insert_trade_data db data_list = (db, Raise e)).
Proof.
  intros Hroom. split.
  - intros Hall. destruct (executemany_insert_succeeds _ _ Hall Hroom) as (db' & E).
    unfold insert_trade_data, transaction. by rewrite E.
  - intros l1 bad l2 e -> Hall Hbad.
    unfold insert_trade_data, transaction.
    rewrite (executemany_insert_Raise l1 db bad l2 e); [done..| |done].
    rewrite length_app in Hroom. lia.
Qed.

(** X6. After a batch is inserted, [get_trade_data()] returns the
    records it returned before and the records of the batch. *)
Theorem inserted_records_are_read_back db data_list db' :
  insert_trade_data db data_list = (db', Ok ()) →
  ∃ records,
    Forall2 (λ t record, trade_record_of t = Ok record) data_list records ∧
    get_trade_data db' None ≡ₚ get_trade_data db None ++ records.
Proof.
  intros H. apply insert_trade_data_Ok, executemany_insert_Ok in H
    as (rows & Hd & Hall & _).
  exists (map fields rows). split.
  - rewrite Forall2_fmap_r. done.
  - rewrite !get_trade_data_None, !merge_sort_Permutation, Hd, map_app. done.
Qed.

Lemma add_filter_clause filters key text param qp :
  add_filter filters key text param qp =
  (qp.1 ++ map fst (clause filters key text param),
   qp.2 ++ map snd (clause filters key text param)).
Proof.
  unfold add_filter, clause. destruct qp as [q p].
  destruct (filters !! key) as [v|]; [destruct (truthy v)|]; simpl;
    by rewrite ?app_nil_r.
Qed.

Lemma conditions_clauses filters :
  conditions filters = (map fst (clauses filters), map snd (clauses filters)).
Proof.
  unfold conditions, clauses. rewrite !add_filter_clause. simpl.
  by rewrite !map_app, !app_assoc.
Qed.

Lemma mapM_adapt_length l : ∀ b, mapM adapt l = Ok b → length b = length l.
Proof.
  induction l as [|x l IH]; intros b H; simpl in H.
  - by injection H as <-.
  - apply bind_Ok in H as (c & _ & H). apply bind_Ok in H as (cs & Hcs & [= <-]).
    simpl. f_equal. by apply IH.
Qed.

Lemma get_trade_data_clauses db filters bound :
  mapM adapt (map snd (clauses filters)) = Ok bound →
  get_trade_data db (Some filters) =
  merge_sort order_by
    (filter (λ r, forallb (holds r) (zip (map fst (clauses filters)) bound) = true)
            (map fields (trade_data db))).
Proof.
  intros Hb. unfold get_trade_data. rewrite build_query_Some, conditions_clauses.
  unfold read_sql_query, bind_parameters. simpl.
  rewrite !length_map, Nat.eqb_refl, Hb. done.
Qed.

Lemma get_trade_data_clauses_Raise db filters e :
  mapM adapt (map snd (clauses filters)) = Raise e →
  get_trade_data db (Some filters) = [].
Proof.
  intros Hb. unfold get_trade_data. rewrite build_query_Some, conditions_clauses.
  unfold read_sql_query, bind_parameters. simpl.
  rewrite !length_map, Nat.eqb_refl, Hb. done.
Qed.

Lemma mapM_adapt_Raise l x e :
  x ∈ l → adapt x = Raise e → ∃ e', mapM adapt l = Raise e'.
Proof.
  intros Hin Hx. induction l as [|y l IH]; [by apply elem_of_nil in Hin|].
  simpl. destruct (adapt y) as [c|e1] eqn:Ey; simpl; [|by eexists].
  apply elem_of_cons in Hin as [->|Hin]; [congruence|].
  destruct (IH Hin) as (e' & ->). simpl. by eexists.
Qed.

(** X9. A filter on the year, the reporter, the partner or the flow
    whose value is true in a test and cannot be bound (a list, a
    dictionary, an integer beyond 64 bits) gives the empty result,
    whatever the table holds. *)
Theorem unbindable_filter_returns_nothing db (filters : gmap string pyval) key v e :
  key ∈ ["year"; "reporter_code"; "partner_code"; "trade_flow"] →
  filters !! key = Some v → truthy v = true → adapt v = Raise e →
  get_trade_data db (Some filters) = [].
Proof.
  intros Hkey Hv Ht He.
  assert (v ∈ map snd (clauses filters)) as Hin.
  { unfold clauses. rewrite !map_app, !elem_of_app. unfold clause.
    repeat (apply elem_of_cons in Hkey as [->|Hkey]);
      [ | | | | by apply elem_of_nil in Hkey ];
      rewrite Hv, Ht; simpl; rewrite list_elem_of_singleton; tauto. }
  destruct (mapM_adapt_Raise _ _ _ Hin He) as (e' & He').
  by apply get_trade_data_clauses_Raise with e'.
Qed.

(** X7. Whatever the filters, the result of [get_trade_data] is in
    the order of the query, and its rows are rows of the table, none
    more often than the table has it. *)
Theorem get_trade_data_sorted_part_of_table db filters :
  StronglySorted order_by (get_trade_data db filters) ∧
  get_trade_data db filters ⊆+ map fields (trade_data db).
Proof.
  unfold get_trade_data.
  destruct (read_sql_query db _ _) as [df|e] eqn:E.
  - unfold read_sql_query in E. apply bind_Ok in E as (bound & _ & [= <-]). split.
    + apply (StronglySorted_merge_sort order_by).
    + rewrite merge_sort_Permutation. apply sublist_submseteq, sublist_filter.
  - split; [constructor | apply submseteq_nil_l].
Qed.

Lemma sublist_clauses_bound (cl cl' : list (condition * pyval)) :
  cl `sublist_of` cl' → ∀ bound',
  mapM adapt (map snd cl') = Ok bound' →
  ∃ bound, mapM adapt (map snd cl) = Ok bound ∧
    zip (map fst cl) bound `sublist_of` zip (map fst cl') bound'.
Proof.
  induction 1 as [|x l1 l2 Hs IH|x l1 l2 Hs IH]; intros bound' H; simpl in *.
  - injection H as <-. by exists [].
  - apply bind_Ok in H as (c & Hc & H). apply bind_Ok in H as (cs & Hcs & [= <-]).
    destruct (IH _ Hcs) as (b & Hb & Hz). exists (c :: b). rewrite Hc, Hb. simpl.
    split; [done|]. by constructor.
  - apply bind_Ok in H as (c & Hc & H). apply bind_Ok in H as (cs & Hcs & [= <-]).
    destruct (IH _ Hcs) as (b & Hb & Hz). exists b. split; [done|]. simpl.
    by constructor.
Qed.

Lemma clause_insert filters k v key text param :
  clause (delete k filters) key text param
    `sublist_of` clause (<[k := v]> filters) key text param.
Proof.
  unfold clause. destruct (decide (k = key)) as [->|Hne].
  - rewrite lookup_delete_eq. apply sublist_nil_l.
  - by rewrite lookup_delete_ne, lookup_insert_ne.
Qed.

Lemma clauses_insert filters k v :
  clauses (delete k filters) `sublist_of` clauses (<[k := v]> filters).
Proof. unfold clauses. repeat apply sublist_app; apply clause_insert. Qed.

Lemma forallb_sublist {A} (f : A → bool) l l' :
  l `sublist_of` l' → forallb f l' = true → forallb f l = true.
Proof.
  rewrite !forallb_forall. intros Hs H x Hx. apply H.
  apply list_elem_of_In. apply list_elem_of_In in Hx.
  by eapply sublist_subseteq.
Qed.

(** X8. A filter more is no row more: the result for a dictionary
    with the key [key] is part of the result for the dictionary without
    it, and every result is part of the result without filters. *)
Theorem one_more_filter_no_more_rows db (filters : gmap string pyval) key v :
  get_trade_data db (Some (<[key := v]> filters))
    ⊆+ get_trade_data db (Some (delete key filters)) ∧
  get_trade_data db (Some filters) ⊆+ get_trade_data db None.
Proof.
  assert (Hgen : ∀ cl cl' : gmap string pyval,
    clauses cl `sublist_of` clauses cl' →
    get_trade_data db (Some cl') ⊆+ get_trade_data db (Some cl)).
  { intros cl cl' Hs.
    destruct (mapM adapt (map snd (clauses cl'))) as [bound'|e] eqn:E.
    - destruct (sublist_clauses_bound _ _ Hs _ E) as (bound & Hb & Hz).
      rewrite (get_trade_data_clauses _ _ _ E), (get_trade_data_clauses _ _ _ Hb).
      rewrite !merge_sort_Permutation.
      rewrite <- (list_filter_filter_l _
        (λ r, forallb (holds r) (zip (map fst (clauses cl)) bound) = true)).
      + apply sublist_submseteq, sublist_filter.
      + intros r. by apply forallb_sublist.
    - rewrite (get_trade_data_clauses_Raise _ _ _ E). apply submseteq_nil_l. }
  split.
  - apply Hgen, clauses_insert.
  - replace (get_trade_data db None) with (get_trade_data db (Some ∅)).
    + apply Hgen. apply sublist_nil_l.
    + unfold get_trade_data. by rewrite build_query_Some.
Qed.

End Batches.

(** ** The primary keys of the reference tables *)

Lemma StronglySorted_filter {A} (R : relation A) (P : A → Prop)
    `{∀ x, Decision (P x)} l :
  StronglySorted R l → StronglySorted R (filter P l).
Proof.
  induction 1 as [|x l Hl IH Hx]; [constructor|].
  rewrite filter_cons. destruct (decide (P x)); [|done].
  constructor; [done|]. rewrite Forall_forall in *. intros y Hy.
  apply Hx. by apply list_elem_of_filter in Hy as [_ ?].
Qed.

Lemma replace_into_keys_differ {A} (key : A → sqlval) table row :
  keys_differ key table → keys_differ key (replace_into key table row).
Proof.
  intros H. unfold keys_differ, replace_into.
  apply StronglySorted_app_2.
  - intros x1 x2 Hx1 Hx2. apply list_elem_of_filter in Hx1 as [Hk _].
    by apply list_elem_of_singleton in Hx2 as ->.
  - by apply StronglySorted_filter.
  - repeat constructor.
Qed.

Section Keys.
Context {RT : Runtime}.

Lemma insert_country_Ok db t db' :
  insert_country db t = Ok db' →
  ∃ row, db' = with_countries db (replace_into country_code (countries db) row).
Proof.
  unfold insert_country. intros H. apply bind_Ok in H as (cells & _ & H).
  do 4 (destruct cells as [|? cells]; try done). injection H as <-. by eexists.
Qed.

Lemma insert_hs_Ok db t db' :
  insert_hs db t = Ok db' →
  ∃ row, db' = with_hs_codes db (replace_into hs_code_ (hs_codes db) row).
Proof.
  unfold insert_hs. intros H. apply bind_Ok in H as (cells & _ & H).
  do 4 (destruct cells as [|? cells]; try done). injection H as <-. by eexists.
Qed.

Lemma executemany_country_invariant l : ∀ db db',
  executemany insert_country db l = Ok db' →
  (keys_differ country_code (countries db) → keys_differ country_code (countries db')) ∧
  trade_data db' = trade_data db ∧ trade_data_seq db' = trade_data_seq db ∧
  hs_codes db' = hs_codes db.
Proof.
  induction l as [|t l IH]; intros db db' H; simpl in H.
  - by injection H as <-.
  - apply bind_Ok in H as (db1 & H1 & H). apply insert_country_Ok in H1 as (row & ->).
    apply IH in H as (Hk & ? & ? & ?). split_and!; try done.
    intros Hd. apply Hk. simpl. by apply replace_into_keys_differ.
Qed.

Lemma executemany_hs_invariant l : ∀ db db',
  executemany insert_hs db l = Ok db' →
  (keys_differ hs_code_ (hs_codes db) → keys_differ hs_code_ (hs_codes db')) ∧
  trade_data db' = trade_data db ∧ trade_data_seq db' = trade_data_seq db ∧
  countries db' = countries db.
Proof.
  induction l as [|t l IH]; intros db db' H; simpl in H.
  - by injection H as <-.
  - apply bind_Ok in H as (db1 & H1 & H). apply insert_hs_Ok in H1 as (row & ->).
    apply IH in H as (Hk & ? & ? & ?). split_and!; try done.
    intros Hd. apply Hk. simpl. by apply replace_into_keys_differ.
Qed.

(** X10. [insert_countries] and [insert_hs_codes] keep the primary
    key: when no two rows of the table have one code before the call,
    none have after it, whatever the batch and whether it raises or
    not; and each call leaves the other tables as they were. *)
Theorem reference_inserts_keep_the_primary_key db rows :
  let db1 := (insert_countries db rows).1 in
  let db2 := (insert_hs_codes db rows).1 in
  (keys_differ country_code (countries db) → keys_differ country_code (countries db1)) ∧
  (keys_differ hs_code_ (hs_codes db) → keys_differ hs_code_ (hs_codes db2)) ∧
  (trade_data db1 = trade_data db ∧ hs_codes db1 = hs_codes db) ∧
  (trade_data db2 = trade_data db ∧ countries db2 = countries db).
Proof.
  unfold insert_countries, insert_hs_codes, transaction.
  destruct (executemany insert_country db rows) as [db1|] eqn:E1;
  destruct (executemany insert_hs db rows) as [db2|] eqn:E2; simpl;
    try apply executemany_country_invariant in E1 as (? & ? & ? & ?);
    try apply executemany_hs_invariant in E2 as (? & ? & ? & ?);
    split_and!; done.
Qed.

End Keys.

Lemma filter_nothing {A} (P : A → Prop) `{∀ x, Decision (P x)} (l : list A) :
  (∀ x, x ∈ l → ¬ P x) → filter P l = [].
Proof.
  intros HP. induction l as [|x l IH]; [done|].
  rewrite filter_cons_False by (apply HP; by left).
  apply IH. intros y Hy. apply HP. by right.
Qed.

Section Fold.
Context {A : Type} (key : A → sqlval) (code : A → string).

Lemma fold_replace_into rows : ∀ table,
  Forall (λ r, key r = SqlText (code r)) rows →
  NoDup (map code rows) →
  fold_left (replace_into key) rows table =
  filter (λ r, Forall (λ row, same_key (key r) (key row) = false) rows) table ++ rows.
Proof.
  induction rows as [|row rows IH]; intros table Hkey Hnd; simpl.
  - rewrite app_nil_r. symmetry. apply filter_all. intros; constructor.
  - apply NoDup_cons in Hnd as [Hrow Hnd].
    apply Forall_cons in Hkey as [Hk Hkey]. rewrite IH by done.
    unfold replace_into. rewrite filter_app, <- app_assoc. f_equal.
    + rewrite list_filter_filter. apply list_filter_iff. intros r.
      rewrite Forall_cons. tauto.
    + rewrite filter_cons_True; [done|].
      apply Forall_forall. intros r Hr.
      rewrite Forall_forall in Hkey.
      rewrite Hk, (Hkey r Hr), same_key_text. apply bool_decide_eq_false.
      intros Heq. apply Hrow. rewrite Heq. apply list_elem_of_fmap. by exists r.
Qed.

Lemma fold_replace_into_twice rows table :
  Forall (λ r, key r = SqlText (code r)) rows →
  NoDup (map code rows) →
  fold_left (replace_into key) rows (fold_left (replace_into key) rows table) =
  fold_left (replace_into key) rows table.
Proof.
  intros Hkey Hnd. rewrite !fold_replace_into by done.
  rewrite filter_app, list_filter_filter, <- app_assoc. f_equal.
  - apply list_filter_iff. tauto.
  - rewrite filter_nothing; [done|]. intros r Hin.
    rewrite Forall_forall. intros H. specialize (H r Hin).
    rewrite Forall_forall in Hkey.
    rewrite (Hkey r Hin), same_key_text, bool_decide_eq_true_2 in H; done.
Qed.

Lemma fold_replace_into_lookup rows table r :
  Forall (λ r, key r = SqlText (code r)) rows →
  NoDup (map code rows) →
  r ∈ rows →
  filter (λ row, key row = SqlText (code r)) (fold_left (replace_into key) rows table) = [r].
Proof.
  intros Hkey Hnd Hin. rewrite fold_replace_into by done.
  rewrite Forall_forall in Hkey.
  rewrite filter_app, list_filter_filter, filter_nothing.
  - simpl. clear table. induction rows as [|x rows IH]; [by apply elem_of_nil in Hin|].
    apply NoDup_cons in Hnd as [Hx Hnd].
    apply elem_of_cons in Hin as [->|Hin].
    + rewrite filter_cons_True by (apply Hkey; by left). f_equal.
      apply filter_nothing. intros y Hy Hk. apply Hx.
      assert (code y = code x) as <-.
      { rewrite (Hkey y) in Hk by (by right). congruence. }
      apply list_elem_of_fmap. by exists y.
    + rewrite filter_cons_False.
      * apply IH; [|done..]. intros y Hy. apply Hkey. by right.
      * intros Hk. apply Hx.
        assert (code x = code r) as ->.
        { rewrite (Hkey x) in Hk by (by left). congruence. }
        apply list_elem_of_fmap. by exists r.
  - intros x _ [Hx HF]. rewrite Forall_forall in HF. specialize (HF r Hin).
    rewrite Hx, (Hkey r Hin), same_key_text, bool_decide_eq_true_2 in HF; done.
Qed.
End Fold.

Section Refresh.
Context {RT : Runtime}.

Lemma insert_countries_triples db rows :
  insert_countries db (map triple rows) =
  (with_countries db
     (fold_left (replace_into country_code) (map country_row rows) (countries db)),
   Ok ()).
Proof. apply insert_countries_text. Qed.

Lemma insert_hs_codes_triples db rows :
  insert_hs_codes db (map triple rows) =
  (with_hs_codes db
     (fold_left (replace_into hs_code_) (map hs_row rows) (hs_codes db)),
   Ok ()).
Proof. apply insert_hs_codes_text. Qed.

(** X11. A batch of rows of three texts with pairwise different codes,
    inserted a second time, changes nothing; and after the batch the
    table has, for each of its codes, the row of the batch and no
    other. *)
Theorem reference_batch_twice_is_once db rows :
  NoDup (map (λ r : string * string * string, r.1.1) rows) →
  (insert_countries (insert_countries db (map triple rows)).1 (map triple rows)).1 =
    (insert_countries db (map triple rows)).1 ∧
  (insert_hs_codes (insert_hs_codes db (map triple rows)).1 (map triple rows)).1 =
    (insert_hs_codes db (map triple rows)).1 ∧
  (∀ r, r ∈ rows →
     filter (λ row, country_code row = SqlText r.1.1)
            (countries (insert_countries db (map triple rows)).1) = [country_row r] ∧
     filter (λ row, hs_code_ row = SqlText r.1.1)
            (hs_codes (insert_hs_codes db (map triple rows)).1) = [hs_row r]).
Proof.
  intros Hnd.
  assert (Hkc : Forall (λ row, country_code row = SqlText (country_code_text row))
                  (map country_row rows)) by (apply Forall_fmap, Forall_true; done).
  assert (Hkh : Forall (λ row, hs_code_ row = SqlText (hs_code_text row))
                  (map hs_row rows)) by (apply Forall_fmap, Forall_true; done).
  assert (Hc : NoDup (map country_code_text (map country_row rows)))
    by (by rewrite <- list_fmap_compose).
  assert (Hh : NoDup (map hs_code_text (map hs_row rows)))
    by (by rewrite <- list_fmap_compose).
  rewrite (insert_countries_triples db), (insert_hs_codes_triples db). cbn [fst].
  rewrite !insert_countries_triples, !insert_hs_codes_triples.
  unfold with_countries, with_hs_codes.
  cbn [fst countries hs_codes trade_data trade_data_seq].
  split_and!.
  - f_equal. by apply (fold_replace_into_twice _ country_code_text).
  - f_equal. by apply (fold_replace_into_twice _ hs_code_text).
  - intros r Hr. split.
    + apply (fold_replace_into_lookup _ country_code_text _ _ (country_row r));
        [done..|]. apply list_elem_of_fmap. by exists r.
    + apply (fold_replace_into_lookup _ hs_code_text _ _ (hs_row r));
        [done..|]. apply list_elem_of_fmap. by exists r.
Qed.

Lemma NoDup_country_codes : NoDup (map (λ r : string * string * string, r.1.1) countries_data).
Proof. apply (bool_decide_unpack _). vm_compute. exact I. Qed.

Lemma NoDup_hs_codes : NoDup (map fst HS_CATEGORIES).
Proof. apply (bool_decide_unpack _). vm_compute. exact I. Qed.

(** X12. [get_country_codes] and [get_hs_codes] of the extractor,
    run a second time, change nothing; after them each listed country
    and each item of [HS_CATEGORIES] has its one row, whatever the table
    held; and the trade data are untouched. *)
Theorem refresh_of_reference_tables self :
  let self1 := get_country_codes self in
  let self2 := ComtradeDataExtractor.get_hs_codes self in
  get_country_codes self1 = self1 ∧
  ComtradeDataExtractor.get_hs_codes self2 = self2 ∧
  (∀ r, r ∈ countries_data →
     filter (λ row, country_code row = SqlText r.1.1) (countries (db_manager self1)) =
       [country_row r]) ∧
  (∀ cd, cd ∈ HS_CATEGORIES →
     filter (λ row, hs_code_ row = SqlText cd.1) (hs_codes (db_manager self2)) =
       [hs_row (cd.1, cd.2, "Various")]) ∧
  trade_data (db_manager self1) = trade_data (db_manager self) ∧
  trade_data (db_manager self2) = trade_data (db_manager self).
Proof.
  intros self1 self2.
  set (hs_data := map (λ cd : string * string, (cd.1, cd.2, "Various")) HS_CATEGORIES).
  assert (E2 : ∀ s, ComtradeDataExtractor.get_hs_codes s =
    with_db_manager s (with_hs_codes (db_manager s)
      (fold_left (replace_into hs_code_) (map hs_row hs_data) (hs_codes (db_manager s))))).
  { intros s. unfold ComtradeDataExtractor.get_hs_codes.
    rewrite (list_fmap_compose (λ cd : string * string, (cd.1, cd.2, "Various")) triple).
    fold hs_data. by rewrite insert_hs_codes_triples. }
  assert (E1 : ∀ s, get_country_codes s =
    with_db_manager s (with_countries (db_manager s)
      (fold_left (replace_into country_code) (map country_row countries_data)
                 (countries (db_manager s))))).
  { intros s. unfold get_country_codes. by rewrite insert_countries_triples. }
  assert (Hkc : Forall (λ row, country_code row = SqlText (country_code_text row))
                  (map country_row countries_data)) by (apply Forall_fmap, Forall_true; done).
  assert (Hkh : Forall (λ row, hs_code_ row = SqlText (hs_code_text row))
                  (map hs_row hs_data)) by (apply Forall_fmap, Forall_true; done).
  assert (Hc : NoDup (map country_code_text (map country_row countries_data)))
    by (rewrite <- list_fmap_compose; apply NoDup_country_codes).
  assert (Hh : NoDup (map hs_code_text (map hs_row hs_data))).
  { unfold hs_data. rewrite <- !list_fmap_compose. apply NoDup_hs_codes. }
  unfold self1, self2. rewrite !E1, !E2.
  unfold with_db_manager, with_countries, with_hs_codes.
  cbn [db_manager countries hs_codes trade_data trade_data_seq api_key
       max_requests_per_hour requests_made].
  split_and!; try done.
  - do 2 f_equal. by apply (fold_replace_into_twice _ country_code_text).
  - do 2 f_equal. by apply (fold_replace_into_twice _ hs_code_text).
  - intros r Hr.
    apply (fold_replace_into_lookup _ country_code_text _ _ (country_row r)); [done..|].
    apply list_elem_of_fmap. by exists r.
  - intros cd Hcd.
    apply (fold_replace_into_lookup _ hs_code_text _ _ (hs_row (cd.1, cd.2, "Various")));
      [done..|].
    apply list_elem_of_fmap. exists (cd.1, cd.2, "Various"). split; [done|].
    apply list_elem_of_fmap. by exists cd.
Qed.

Lemma same_key_sym a b : same_key a b = same_key b a.
Proof.
  unfold same_key. rewrite (sql_compare_opp b a).
  destruct a, b; simpl; try done.
  all: apply bool_decide_ext; by destruct (_ ?= _)%Q || by destruct (String.compare _ _).
Qed.

#[global] Instance by_name_total : Total by_name.
Proof.
  intros a b. unfold by_name. rewrite (sql_compare_opp (country_name b)).
  destruct (sql_compare (country_name a) (country_name b)); simpl; auto.
Qed.

#[global] Instance by_name_trans : Transitive by_name.
Proof. intros a b c. unfold by_name. apply sql_compare_le_trans. Qed.

#[global] Instance by_code_total : Total by_code.
Proof.
  intros a b. unfold by_code. rewrite (sql_compare_opp (hs_code_ b)).
  destruct (sql_compare (hs_code_ a) (hs_code_ b)); simpl; auto.
Qed.

#[global] Instance by_code_trans : Transitive by_code.
Proof. intros a b c. unfold by_code. apply sql_compare_le_trans. Qed.
Lemma StronglySorted_Permutation {A} (R : relation A) `{!Symmetric R} l l' :
  l ≡ₚ l' → StronglySorted R l → StronglySorted R l'.
Proof.
  induction 1 as [|x l l' Hp IH|x y l|l1 l2 l3 _ IH1 _ IH2]; intros H.
  - done.
  - apply StronglySorted_cons in H as [Hx H]. apply StronglySorted_cons.
    split; [by rewrite <- Hp | by apply IH].
  - apply StronglySorted_cons in H as [Hy H].
    apply StronglySorted_cons in H as [Hx H].
    apply Forall_cons in Hy as [Hyx Hy].
    apply StronglySorted_cons. split; [constructor; [by symmetry | done]|].
    by apply StronglySorted_cons.
  - auto.
Qed.


Lemma keys_differ_Permutation {A} (key : A → sqlval) l l' :
  l ≡ₚ l' → keys_differ key l → keys_differ key l'.
Proof.
  apply StronglySorted_Permutation. intros a b H. by rewrite same_key_sym.
Qed.

(** X13. [get_countries] and [get_hs_codes] of the manager return the
    rows of the table, each once, in the order of name and of code; and
    no two returned rows have one code when no two stored have. *)
Theorem reference_tables_are_read_in_order db :
  (DatabaseManager.get_countries db ≡ₚ countries db ∧
   StronglySorted by_name (DatabaseManager.get_countries db) ∧
   (keys_differ country_code (countries db) →
    keys_differ country_code (DatabaseManager.get_countries db))) ∧
  (DatabaseManager.get_hs_codes db ≡ₚ hs_codes db ∧
   StronglySorted by_code (DatabaseManager.get_hs_codes db) ∧
   (keys_differ hs_code_ (hs_codes db) →
    keys_differ hs_code_ (DatabaseManager.get_hs_codes db))).
Proof.
  unfold DatabaseManager.get_countries, DatabaseManager.get_hs_codes. split; split_and!.
  - apply merge_sort_Permutation.
  - apply (StronglySorted_merge_sort by_name).
  - apply keys_differ_Permutation. symmetry. apply merge_sort_Permutation.
  - apply merge_sort_Permutation.
  - apply (StronglySorted_merge_sort by_code).
  - apply keys_differ_Permutation. symmetry. apply merge_sort_Permutation.
Qed.

End Refresh.

(** ** Groups *)

Section Groups.
Context (same : trade_record → trade_record → bool).

Hypothesis same_refl : ∀ a, same a a = true.
Hypothesis same_sym : ∀ a b, same a b = same b a.
Hypothesis same_trans : ∀ a b c, same a b = true → same b c = true → same a c = true.

Lemma first_same_head (g : list trade_record) a r :
  head g = Some a → match g with r0 :: _ => same r0 r | [] => false end = same a r.
Proof. destruct g; [done|]. by intros [= ->]. Qed.

Lemma add_to_groups_none groups heads r :
  Forall2 (λ g a, head g = Some a ∧ Forall (λ b, same a b = true) g) groups heads →
  Forall (λ a, same a r = false) heads →
  existsb (λ g, match g with r0 :: _ => same r0 r | [] => false end) groups = false ∧
  map (λ g, if match g with r0 :: _ => same r0 r | [] => false end
              then g ++ [r] else g) groups = groups.
Proof.
  induction 1 as [|g a groups heads [Hg _] _ IH]; intros Hh; [done|].
  apply Forall_cons in Hh as [Ha Hh]. destruct (IH Hh) as [IH1 IH2].
  simpl. rewrite IH1, IH2, (first_same_head _ _ _ Hg), Ha. done.
Qed.

Lemma add_to_groups_grouped groups heads r :
  grouped same groups heads →
  ∃ heads',
    grouped same (add_to_groups same groups r) heads' ∧
    concat (add_to_groups same groups r) ≡ₚ concat groups ++ [r].
Proof.
  intros [Hf Hs]. unfold add_to_groups.
  destruct (existsb (λ g, match g with r0 :: _ => same r0 r | [] => false end) groups) eqn:E.
  - exists heads. revert Hs E.
    induction Hf as [|g a groups heads [Hg Hga] Hf IH]; intros Hs E; [done|].
    apply StronglySorted_cons in Hs as [Ha Hs].
    simpl in E. simpl. rewrite (first_same_head _ _ _ Hg) in *.
    destruct (same a r) eqn:Ear.
    + assert (Hothers : Forall (λ b, same b r = false) heads).
      { apply Forall_forall. intros b Hb. rewrite Forall_forall in Ha.
        destruct (same b r) eqn:Ebr; [|done].
        rewrite <- (Ha b Hb). symmetry. apply same_trans with r; [done|].
        by rewrite same_sym. }
      destruct (add_to_groups_none _ _ _ Hf Hothers) as [_ ->].
      split; [split|].
      * constructor; [|done]. split.
        -- destruct g; [done|]. done.
        -- apply Forall_app. split; [done|]. by constructor.
      * by apply StronglySorted_cons.
      * rewrite <- !app_assoc. f_equiv. apply Permutation_app_comm.
    + simpl in E. destruct (IH Hs E) as [[Hf' Hs'] Hp].
      split; [split|].
      * by constructor.
      * by apply StronglySorted_cons.
      * rewrite Hp. by rewrite app_assoc.
  - exists (heads ++ [r]). split; [split|].
    + apply Forall2_app; [done|]. repeat constructor. by rewrite same_refl.
    + apply StronglySorted_app_2; [|done|repeat constructor].
      intros a b Ha Hb. apply list_elem_of_singleton in Hb as ->.
      clear Hs. induction Hf as [|g a' groups heads [Hg _] Hf IH];
        [by apply elem_of_nil in Ha|].
      simpl in E. apply orb_false_elim in E as [E1 E2].
      rewrite (first_same_head _ _ _ Hg) in E1.
      apply elem_of_cons in Ha as [->|Ha]; [done|]. by apply IH.
    + rewrite concat_app. simpl. by rewrite ?app_nil_r.
Qed.

Lemma group_by_grouped rows :
  ∃ heads,
    grouped same (group_by same rows) heads ∧
    concat (group_by same rows) ≡ₚ rows.
Proof.
  unfold group_by.
  assert (H : ∀ groups heads, grouped same groups heads →
    ∃ heads', grouped same (fold_left (add_to_groups same) rows groups) heads' ∧
      concat (fold_left (add_to_groups same) rows groups) ≡ₚ concat groups ++ rows).
  { induction rows as [|r rows IH]; intros groups heads Hg; simpl.
    - exists heads. by rewrite app_nil_r.
    - destruct (add_to_groups_grouped _ _ r Hg) as (heads1 & Hg1 & Hp1).
      destruct (IH _ _ Hg1) as (heads2 & Hg2 & Hp2).
      exists heads2. split; [done|]. rewrite Hp2, Hp1, <- app_assoc. done. }
  destruct (H [] []) as (heads & Hg & Hp); [split; constructor|].
  by exists heads.
Qed.
End Groups.

Lemma sql_compare_refl a : sql_compare a a = Eq.
Proof.
  pose proof (sql_compare_opp a a) as H.
  destruct (sql_compare a a); simpl in H; congruence.
Qed.

Lemma same_cell_refl a : same_cell a a = true.
Proof. unfold same_cell. by rewrite sql_compare_refl. Qed.

Lemma same_cell_sym a b : same_cell a b = same_cell b a.
Proof.
  unfold same_cell. apply bool_decide_ext.
  rewrite (sql_compare_opp b a). by destruct (sql_compare a b).
Qed.

Lemma same_cell_trans a b c :
  same_cell a b = true → same_cell b c = true → same_cell a c = true.
Proof.
  unfold same_cell. rewrite !bool_decide_eq_true.
  apply (cmp_eq_trans _ sql_compare_opp sql_compare_le_trans).
Qed.

Section Pair.
Context (f g : trade_record → sqlval).

Lemma same_pair_refl a : same_pair f g a a = true.
Proof. unfold same_pair. by rewrite !same_cell_refl. Qed.

Lemma same_pair_sym a b : same_pair f g a b = same_pair f g b a.
Proof. unfold same_pair. by rewrite (same_cell_sym (f a)), (same_cell_sym (g a)). Qed.

Lemma same_pair_trans a b c :
  same_pair f g a b = true → same_pair f g b c = true → same_pair f g a c = true.
Proof.
  unfold same_pair. rewrite !andb_true_iff. intros [? ?] [? ?].
  split; by eapply same_cell_trans.
Qed.
End Pair.

#[global] Instance by_total_value_total : Total by_total_value.
Proof.
  intros a b. unfold by_total_value.
  rewrite (sql_compare_opp (total_value b)).
  destruct (sql_compare (total_value a) (total_value b)); simpl; auto.
Qed.

#[global] Instance by_total_value_trans : Transitive by_total_value.
Proof.
  intros a b c. unfold by_total_value.
  apply (cmp_ge_trans _ sql_compare_opp sql_compare_le_trans).
Qed.

#[global] Instance by_year_total : Total by_year.
Proof.
  intros a b. unfold by_year.
  rewrite (sql_compare_opp (trend_year b)).
  destruct (sql_compare (trend_year a) (trend_year b)); simpl; auto.
Qed.

#[global] Instance by_year_trans : Transitive by_year.
Proof. intros a b c. unfold by_year. apply sql_compare_le_trans. Qed.

Lemma StronglySorted_take {A} (R : relation A) n l :
  StronglySorted R l → StronglySorted R (take n l).
Proof.
  intros H. rewrite <- (take_drop n l) in H. by apply StronglySorted_app_1_l in H.
Qed.

Lemma where_eq_text v s :
  ∀ RT : Runtime, where_eq TEXT v (SqlText s) = true ↔ v = SqlText s.
Proof.
  intros RT. unfold where_eq. simpl. destruct v as [| | |t]; simpl; try done.
  split.
  - destruct (String.compare t s) eqn:E; try done.
    apply String.compare_eq_iff in E as ->. done.
  - intros [= ->]. by rewrite string_compare_refl.
Qed.

Lemma sum_Permutation (l l' : list Z) :
  l ≡ₚ l' → fold_right Z.add 0 l = fold_right Z.add 0 l'.
Proof. induction 1; simpl; lia. Qed.

Lemma sum_lengths {A} (groups : list (list A)) :
  fold_right Z.add 0 (map (λ g, Z.of_nat (length g)) groups) =
  Z.of_nat (length (concat groups)).
Proof.
  induction groups as [|g groups IH]; simpl; [done|].
  rewrite IH, length_app. lia.
Qed.

Section Top.
Context {RT : Runtime}.

(** X14. For a limit [n] that is not negative [get_top_traders]
    returns at most [n] rows; its rows are in the order of total value
    descending and each counts at least one record; and without a
    limit (a negative [n]) the counts add up to the number of rows of
    that flow that have a trade value. *)
Theorem top_traders_limit_order_and_counts db flow n :
  in_int64 n = true →
  let result := get_top_traders db (PyStr flow) (PyInt n) in
  (0 ≤ n → Z.of_nat (length result) ≤ n) ∧
  StronglySorted by_total_value result ∧
  Forall (λ t, 1 ≤ record_count t) result ∧
  (n < 0 →
   fold_right Z.add 0 (map record_count result) =
   Z.of_nat (length (filter (λ r, trade_flow r = SqlText flow ∧ trade_value r ≠ SqlNull)
                            (map fields (trade_data db))))).
Proof.
  intros Hin result. unfold result, get_top_traders, bind_parameters. simpl.
  rewrite Hin. simpl.
  set (rows := filter _ (map fields (trade_data db))).
  set (same := λ r1 r2 : trade_record, _ && _).
  set (totals := map _ (group_by same rows)).
  destruct (group_by_grouped same (same_pair_refl _ _) (same_pair_sym _ _)
              (same_pair_trans _ _) rows) as (heads & [Hf _] & Hp).
  assert (Hcount : Forall (λ t, 1 ≤ record_count t) totals).
  { unfold totals. apply Forall_fmap, Forall_forall. intros g Hg. simpl.
    apply (Forall2_Forall_l _ (λ g, g ≠ [])) in Hf.
    - rewrite Forall_forall in Hf. specialize (Hf g Hg). destruct g; [done|]. simpl. lia.
    - apply Forall_true. intros a g' [Hh _] ->. done. }
  assert (Hs : StronglySorted by_total_value (merge_sort by_total_value totals))
    by apply (StronglySorted_merge_sort by_total_value).
  assert (Hc : Forall (λ t, 1 ≤ record_count t) (merge_sort by_total_value totals))
    by (by rewrite merge_sort_Permutation).
  destruct (Z.ltb_spec n 0) as [Hneg|Hpos].
  - split_and!; try done; [lia|]. intros _.
    rewrite (sum_Permutation _ (map record_count totals))
      by (by rewrite merge_sort_Permutation).
    unfold totals. rewrite <- list_fmap_compose.
    change (fold_right Z.add 0 (map (λ g, Z.of_nat (length g)) (group_by same rows)) =
            Z.of_nat (length (filter (λ r, trade_flow r = SqlText flow ∧ trade_value r ≠ SqlNull)
                                     (map fields (trade_data db))))).
    rewrite (sum_lengths (group_by same rows)), Hp. f_equal. unfold rows. f_equal.
    apply list_filter_iff. intros r. rewrite where_eq_text.
    destruct (trade_value r); simpl; split; intros [? ?]; split; done.
  - split_and!.
    + intros _. rewrite length_take. lia.
    + by apply StronglySorted_take.
    + rewrite <- (take_drop (Z.to_nat n) (merge_sort by_total_value totals)) in Hc.
      by apply Forall_app in Hc as [? _].
    + lia.
Qed.
End Top.

Section Trends.
Context {RT : Runtime}.

Lemma trends_of_groups (rows : list trade_record) :
  let same := λ r1 r2 : trade_record,
    same_cell (year r1) (year r2) && same_cell (trade_flow r1) (trade_flow r2) in
  let trends :=
    merge_sort by_year
      (map (λ g, {| trend_year := default SqlNull (year <$> head g);
                    trend_flow := default SqlNull (trade_flow <$> head g);
                    trend_value := sql_sum (map trade_value g) |})
           (group_by same rows)) in
  StronglySorted by_year trends ∧
  StronglySorted (λ a b, ¬ same_trend a b) trends.
Proof.
  intros same trends. split; [apply (StronglySorted_merge_sort by_year)|].
  destruct (group_by_grouped same (same_pair_refl _ _) (same_pair_sym _ _)
              (same_pair_trans _ _) rows) as (heads & [Hf Hs] & _).
  assert (Hsym : Symmetric (λ a b : trend, ¬ same_trend a b)).
  { intros a b H [H1 H2]. apply H. split.
    - rewrite sql_compare_opp, H1. done.
    - rewrite sql_compare_opp, H2. done. }
  apply (StronglySorted_Permutation _ _ _ (symmetry (merge_sort_Permutation _ _))).
  revert Hs. induction Hf as [|g a groups heads [Hg _] Hf IH]; intros Hs; [constructor|].
  apply StronglySorted_cons in Hs as [Ha Hs]. simpl.
  apply StronglySorted_cons. split; [|by apply IH].
  rewrite Hg. simpl. clear IH Hs.
  induction Hf as [|g' b groups heads [Hg' _] Hf IH]; [constructor|].
  apply Forall_cons in Ha as [Hab Ha]. simpl. constructor; [|by apply IH].
  rewrite Hg'. unfold same_trend. simpl. intros [H1 H2].
  unfold same, same_cell in Hab. rewrite !bool_decide_eq_true_2 in Hab; done.
Qed.

(** X15. The rows of [get_trade_trends] are in the order of year
    ascending, and no two of them are for one year and one flow. *)
Theorem trade_trends_order_and_keys db code :
  let result := get_trade_trends db code in
  StronglySorted by_year result ∧
  ∀ i j a b, i ≠ j → result !! i = Some a → result !! j = Some b → ¬ same_trend a b.
Proof.
  intros result.
  assert (H : StronglySorted by_year result ∧
              StronglySorted (λ a b, ¬ same_trend a b) result).
  { unfold result, get_trade_trends.
    match goal with |- context [match ?s with Ok _ => _ | Raise _ => _ end] =>
      destruct s as [rows|e] end.
    - apply trends_of_groups.
    - split; constructor. }
  destruct H as [H1 H2]. split; [done|].
  intros i j a b Hij Hi Hj.
  destruct (decide (i < j)%nat).
  - by apply (StronglySorted_lookup _ _ i j a b H2).
  - intros [Hy Hf].
    apply (StronglySorted_lookup _ _ j i b a H2); [lia|done..|].
    split; rewrite sql_compare_opp; [by rewrite Hy | by rewrite Hf].
Qed.
End Trends.

(** ** The values of the summary *)

Lemma Qcompare_inject_Z a b : Qcompare (inject_Z a) (inject_Z b) = Z.compare a b.
Proof. unfold Qcompare. simpl. by rewrite !Z.mul_1_r. Qed.

Lemma extremum_int worse (pick : Z → Z → Z) ys :
  (∀ b v, pick b v = if bool_decide (Z.compare b v = worse) then v else b) →
  ∀ b, fold_left
         (λ best v, if is_null v then best else if is_null best then v
                    else if bool_decide (sql_compare best v = worse) then v else best)
         (map SqlInt ys) (SqlInt b) = SqlInt (fold_left pick ys b).
Proof.
  intros Hpick. induction ys as [|y ys IH]; intros b; [done|].
  simpl. rewrite Qcompare_inject_Z, Hpick.
  destruct (bool_decide (Z.compare b y = worse)); apply IH.
Qed.

Lemma sql_min_int y ys :
  sql_min (map SqlInt (y :: ys)) = SqlInt (fold_left Z.min ys y).
Proof.
  unfold sql_min, extremum. simpl. apply extremum_int. intros b v.
  case_bool_decide as H; rewrite Z.compare_gt_iff in H; lia.
Qed.

Lemma sql_max_int y ys :
  sql_max (map SqlInt (y :: ys)) = SqlInt (fold_left Z.max ys y).
Proof.
  unfold sql_max, extremum. simpl. apply extremum_int. intros b v.
  case_bool_decide as H; rewrite Z.compare_lt_iff in H; lia.
Qed.

Lemma text_cells_not_null (ocodes : list (option string)) :
  filter (λ v, is_null v = false) (map (from_option SqlText SqlNull) ocodes) =
  map SqlText (omap id ocodes).
Proof.
  induction ocodes as [|[s|] l IH]; simpl; [done|..].
  - rewrite filter_cons_True by done. by rewrite IH.
  - rewrite filter_cons_False by done. done.
Qed.

Lemma distinct_texts l : distinct (map SqlText l) = map SqlText (remove_dups l).
Proof.
  induction l as [|x l IH]; [done|]. cbn [map fmap list_fmap distinct remove_dups]. rewrite IH.
  assert (existsb (λ w, bool_decide (sql_compare (SqlText x) w = Eq))
            (map SqlText (remove_dups l)) = bool_decide (x ∈ l)) as ->.
  { apply eq_true_iff_eq. rewrite existsb_exists, bool_decide_eq_true. split.
    - intros (w & Hw & Hc). rewrite <- list_elem_of_In in Hw.
      apply list_elem_of_fmap in Hw as (s & -> & Hs).
      apply bool_decide_eq_true in Hc. simpl in Hc.
      apply String.compare_eq_iff in Hc. subst x.
      by rewrite elem_of_remove_dups in Hs.
    - intros Hx. exists (SqlText x). split.
      + rewrite <- list_elem_of_In. apply list_elem_of_fmap. exists x. split; [done|].
        by rewrite elem_of_remove_dups.
      + apply bool_decide_eq_true. simpl. apply string_compare_refl. }
  unfold decide_rel. case_bool_decide; by destruct (list_elem_of_dec x l).
Qed.

Lemma count_distinct_texts ocodes :
  count_distinct (map (from_option SqlText SqlNull) ocodes) =
  Z.of_nat (length (remove_dups (omap id ocodes))).
Proof.
  unfold count_distinct. by rewrite text_cells_not_null, distinct_texts, length_map.
Qed.

Section Stats2.
Context {RT : Runtime}.

(** X16. On a table whose years are integers the year range is the
    least and the greatest of them, joined by a hyphen, unless the
    least is 0: then it is ["No data"] although the table has rows. *)
Theorem year_range_of_integer_years db y ys :
  map year (map fields (trade_data db)) = map SqlInt (y :: ys) →
  year_range (get_summary_stats db) =
    if Z.eqb (fold_left Z.min ys y) 0 then "No data"
    else (str_of_int (fold_left Z.min ys y) ++ "-" ++ str_of_int (fold_left Z.max ys y))%string.
Proof.
  intros H. unfold get_summary_stats. simpl.
  rewrite H, sql_min_int, sql_max_int. simpl.
  by destruct (Z.eqb _ 0).
Qed.

(** X17. On a table whose reporter and partner codes are texts or
    NULL, [unique_reporters] and [unique_partners] are the numbers of
    different texts among them. *)
Theorem unique_counts_are_numbers_of_codes db reporters partners :
  map reporter_code (map fields (trade_data db)) =
    map (from_option SqlText SqlNull) reporters →
  map partner_code (map fields (trade_data db)) =
    map (from_option SqlText SqlNull) partners →
  unique_reporters (get_summary_stats db) =
    Z.of_nat (length (remove_dups (omap id reporters))) ∧
  unique_partners (get_summary_stats db) =
    Z.of_nat (length (remove_dups (omap id partners))).
Proof.
  intros Hr Hp. unfold get_summary_stats. simpl.
  by rewrite Hr, Hp, !count_distinct_texts.
Qed.
End Stats2.

(** ** The further statements on examples *)

Section MoreExamples.
#[local] Existing Instance decimal_runtime.

Lemma window_within_a_ceiling_of_2 :
  let self := {| api_key := ""; db_manager := empty; max_requests_per_hour := 2;
                 requests_made := [0; 1000000] |} in
  let http := Response 3000000 200 None in
  1 ≤ max_requests_per_hour self ∧
  Z.of_nat (length (requests_made (make_request self 2000000 http).1.1))
    ≤ max_requests_per_hour self.
Proof.
  intros self http.
  assert (H : 1 ≤ max_requests_per_hour self) by discriminate.
  split; [exact H|].
  exact (make_request_keeps_window_within_ceiling self 2000000 http H).
Defined.

Lemma request_exception_extracts_nothing :
  let self := init "" "" (table [sample 2022 "84" (SqlReal 5)]) in
  let out := extract_trade_data_free_api self 0 RequestException
               (PyStr "USA") (PyStr "all") (PyInt 2022) (PyStr "TOTAL") in
  out.2 = 0 ∧ db_manager out.1 = db_manager self ∧
  requests_made out.1 = requests_made (check_rate_limit self 0).1 ++ [].
Proof.
  intros self out.
  exact (failed_request_extracts_nothing self 0 RequestException
           (PyStr "USA") (PyStr "all") (PyInt 2022) (PyStr "TOTAL")
           (or_introl eq_refl)).
Defined.

Lemma shape_of_a_tuple :
  let record := PyDict [("period", PyInt 2022); ("tradeValue", PyInt 5)] in
  let t := [PyInt 2022; PyNone; PyStr "USA"; PyStr ""; PyStr ""; PyStr "";
            PyStr "Import"; PyStr "TOTAL"; PyStr ""; PyFloat (inject_Z 5);
            PyNone; PyStr ""] in
  data_record (PyStr "USA") (PyInt 2022) (PyStr "TOTAL") record = Ok t ∧
  length t = 12%nat ∧ t !! 1%nat = Some PyNone.
Proof.
  intros record t.
  assert (H : data_record (PyStr "USA") (PyInt 2022) (PyStr "TOTAL") record = Ok t)
    by reflexivity.
  split; [exact H|].
  destruct (data_record_shape _ _ _ _ _ H) as (H1 & H2 & _).
  split; [exact H1 | exact H2].
Defined.

Lemma outcome_of_a_batch_of_three :
  let good := sample_tuple 2022 "84" (PyFloat 5) in
  let bad := [PyInt 2022] in
  next_rowid empty + Z.of_nat (length [good; bad; good]) ≤ 2 ^ 63 ∧
  insert_trade_data empty [good; bad; good] = (empty, Raise ProgrammingError) .
Proof.
  intros good bad.
  assert (H : next_rowid empty + Z.of_nat (length [good; bad; good]) ≤ 2 ^ 63)
    by discriminate.
  split; [exact H|].
  refine (proj2 (insert_trade_data_outcome empty [good; bad; good] H)
            [good] bad [good] ProgrammingError eq_refl _ eq_refl).
  constructor; [|constructor]. eexists. reflexivity.
Defined.

Lemma inserted_record_is_read_back :
  let db := table [sample 2021 "84" (SqlReal 9)] in
  let batch := [sample_tuple 2022 "85" (PyFloat 5)] in
  let db' := (insert_trade_data db batch).1 in
  insert_trade_data db batch = (db', Ok ()) ∧
  ∃ records,
    Forall2 (λ t record, trade_record_of t = Ok record) batch records ∧
    get_trade_data db' None ≡ₚ get_trade_data db None ++ records.
Proof.
  intros db batch db'.
  assert (H : insert_trade_data db batch = (db', Ok ())) by reflexivity.
  split; [exact H|].
  exact (inserted_records_are_read_back db batch db' H).
Defined.

Lemma list_as_year_returns_nothing :
  let db := table [sample 2022 "84" (SqlReal 5)] in
  let filters : gmap string pyval := {[ "year" := PyList [PyInt 2022] ]} in
  (filters !! "year" = Some (PyList [PyInt 2022]) ∧
   truthy (PyList [PyInt 2022]) = true ∧
   adapt (PyList [PyInt 2022]) = Raise ProgrammingError) ∧
  get_trade_data db (Some filters) = [].
Proof.
  intros db filters.
  assert (H : filters !! "year" = Some (PyList [PyInt 2022])) by reflexivity.
  split; [split; [exact H | split; reflexivity]|].
  refine (unbindable_filter_returns_nothing db filters "year" (PyList [PyInt 2022])
            ProgrammingError _ H eq_refl eq_refl).
  apply list_elem_of_here.
Defined.

Lemma primary_key_after_two_inserts :
  let rows := [triple ("USA", "United States", "Americas");
               triple ("USA", "United States of America", "Americas")] in
  keys_differ country_code (countries empty) ∧
  keys_differ country_code (countries (insert_countries empty rows).1).
Proof.
  intros rows.
  assert (H : keys_differ country_code (countries empty)) by constructor.
  split; [exact H|].
  exact (proj1 (reference_inserts_keep_the_primary_key empty rows) H).
Defined.

Lemma batch_of_two_countries_twice :
  let rows := [("USA", "United States of America", "Americas");
               ("CHN", "China", "Asia")] in
  let db := (insert_countries empty [triple ("CHN", "Cina", "Asia")]).1 in
  NoDup (map (λ r : string * string * string, r.1.1) rows) ∧
  (insert_countries (insert_countries db (map triple rows)).1 (map triple rows)).1 =
    (insert_countries db (map triple rows)).1.
Proof.
  intros rows db.
  assert (H : NoDup (map (λ r : string * string * string, r.1.1) rows)).
  { apply (bool_decide_unpack _). vm_compute. exact I. }
  split; [exact H|].
  exact (proj1 (reference_batch_twice_is_once db rows H)).
Defined.

Lemma top_trader_of_three_rows :
  let db := table [sample 2021 "84" (SqlReal 9); sample 2022 "85" SqlNull;
                   sample 2022 "87" (SqlReal 7)] in
  let result := get_top_traders db (PyStr "Import") (PyInt 1) in
  in_int64 1 = true ∧
  Z.of_nat (length result) ≤ 1 ∧
  StronglySorted by_total_value result.
Proof.
  intros db result.
  assert (H : in_int64 1 = true) by reflexivity.
  split; [exact H|].
  destruct (top_traders_limit_order_and_counts db "Import" 1 H) as (H1 & H2 & _).
  split; [apply H1; discriminate | exact H2].
Defined.

Example top_traders_and_trends_values :
  let db := table [sample 2021 "84" (SqlReal 9); sample 2022 "85" SqlNull;
                   sample 2022 "87" (SqlReal 7)] in
  get_top_traders db (PyStr "Import") (PyInt 10) =
    [{| trader_name := SqlText "United States of America";
        total_value := SqlReal 16; record_count := 2 |}] ∧
  get_top_traders db (PyStr "Export") (PyInt 10) = [] ∧
  get_trade_trends db PyNone =
    [{| trend_year := SqlInt 2021; trend_flow := SqlText "Import";
        trend_value := SqlReal 9 |};
     {| trend_year := SqlInt 2022; trend_flow := SqlText "Import";
        trend_value := SqlReal 7 |}].
Proof. vm_compute. repeat split; reflexivity. Qed.

Lemma year_range_of_two_years :
  let db := table [sample 2023 "84" (SqlReal 9); sample 2021 "85" SqlNull] in
  let db0 := table [sample 0 "84" (SqlReal 9); sample 2021 "85" SqlNull] in
  (map year (map fields (trade_data db)) = map SqlInt [2023; 2021] ∧
   year_range (get_summary_stats db) = "2021-2023") ∧
  (map year (map fields (trade_data db0)) = map SqlInt [0; 2021] ∧
   year_range (get_summary_stats db0) = "No data").
Proof.
  intros db db0. split.
  - assert (H : map year (map fields (trade_data db)) = map SqlInt [2023; 2021])
      by reflexivity.
    split; [exact H|]. exact (year_range_of_integer_years db 2023 [2021] H).
  - assert (H : map year (map fields (trade_data db0)) = map SqlInt [0; 2021])
      by reflexivity.
    split; [exact H|]. exact (year_range_of_integer_years db0 0 [2021] H).
Defined.

Lemma unique_counts_of_two_rows :
  let db := table [sample 2023 "84" (SqlReal 9); sample 2021 "85" SqlNull] in
  (map reporter_code (map fields (trade_data db)) =
     map (from_option SqlText SqlNull) [Some "USA"; Some "USA"] ∧
   map partner_code (map fields (trade_data db)) =
     map (from_option SqlText SqlNull) [Some "CHN"; Some "CHN"]) ∧
  unique_reporters (get_summary_stats db) = 1 ∧
  unique_partners (get_summary_stats db) = 1.
Proof.
  intros db.
  assert (H1 : map reporter_code (map fields (trade_data db)) =
     map (from_option SqlText SqlNull) [Some "USA"; Some "USA"]) by reflexivity.
  assert (H2 : map partner_code (map fields (trade_data db)) =
     map (from_option SqlText SqlNull) [Some "CHN"; Some "CHN"]) by reflexivity.
  split; [split; [exact H1 | exact H2]|].
  exact (unique_counts_are_numbers_of_codes db _ _ H1 H2).
Defined.

Lemma countries_are_read_with_their_keys :
  let db := (insert_countries empty
               (map triple [("USA", "United States of America", "Americas");
                            ("CHN", "China", "Asia")])).1 in
  keys_differ country_code (countries db) ∧
  DatabaseManager.get_countries db ≡ₚ countries db ∧
  keys_differ country_code (DatabaseManager.get_countries db).
Proof.
  intros db.
  assert (H : keys_differ country_code (countries db)).
  { repeat constructor. }
  split; [exact H|].
  destruct (proj1 (reference_tables_are_read_in_order db)) as (H1 & _ & H2).
  split; [exact H1 | exact (H2 H)].
Defined.

Lemma update_without_a_network :
  let self := init "" "" (table [sample 2022 "84" (SqlReal 5)]) in
  let world := λ _ : nat, (0, RequestException) in
  let out := update_recent_data self 2024 world in
  (∀ k, (k < 10)%nat → (world k).2 = RequestException) ∧
  out.2 = 0 ∧ db_manager out.1 = db_manager self.
Proof.
  intros self world out.
  assert (H : ∀ k, (k < 10)%nat → (world k).2 = RequestException)
    by (intros; reflexivity).
  split; [exact H|].
  exact (proj2 (update_recent_data_returns_rows_added self 2024 world) H).
Defined.

End MoreExamples.
